(** * Verification of [src/utilities/verification.ts]

    A shallow embedding of the Ed25519 request verifier ([verifyKey]) and of
    its two helpers ([valueToUint8Array], [concatUint8Arrays]).

    - JavaScript strings are sequences of UTF-16 code units ([jsstring]).
    - Byte sequences live in a store of [ArrayBuffer]s; a [Uint8Array] is a
      view (buffer, offset, length) on one of them, so that aliasing between
      an input and a result is visible.
    - Exceptions and the store are threaded by a small state-and-error monad.
    - The platform's [crypto.subtle] is an interface ([Runtime]); every call
      made to it is recorded in a trace.  Its Ed25519 is modelled after
      RFC 8032 ([ed25519_runtime]) to run the code on signed requests. *)

From Stdlib Require Import ZArith Lia String Ascii.
From Bignums Require Import BigZ.
From stdpp Require Import base tactics option list numbers strings.

Open Scope Z_scope.

(** ** JavaScript strings *)

Module JsString.

(** A string is the list of its UTF-16 code units, each in [0, 65536). *)
Definition jsstring := list Z.

(** The code units of an ASCII literal. *)
Definition js (s : string) : jsstring :=
  map (fun a => Z.of_N (N_of_ascii a)) (list_ascii_of_string s).

(** ECMAScript [LineTerminator]: LF, CR, LS, PS. *)
Definition isLineTerminator (c : Z) : bool :=
  (c =? 10) || (c =? 13) || (c =? 8232) || (c =? 8233).

(** ECMAScript [WhiteSpace]: TAB, VT, FF, ZWNBSP and the Unicode
    space separators. *)
Definition isWhiteSpace (c : Z) : bool :=
  (c =? 9) || (c =? 11) || (c =? 12) || (c =? 32) || (c =? 160)
  || (c =? 5760) || ((8192 <=? c) && (c <=? 8202))
  || (c =? 8239) || (c =? 8287) || (c =? 12288) || (c =? 65279).

(** [StrWhiteSpaceChar], what [parseInt] skips at the front. *)
Definition isStrWhiteSpaceChar (c : Z) : bool :=
  isWhiteSpace c || isLineTerminator c.

(** [value.match(/.{1,2}/g)]: the successive matches of one or two code
    units other than line terminators ([.] without the [s] flag), scanning
    from the left, greedy, the next search starting where the previous
    match ended. *)
Fixpoint regex_chunks (s : jsstring) : list jsstring :=
  match s with
  | [] => []
  | a :: t =>
      if isLineTerminator a then regex_chunks t
      else match t with
           | [] => [[a]]
           | b :: t' =>
               if isLineTerminator b then [a] :: regex_chunks t
               else [a; b] :: regex_chunks t'
           end
  end.

(** [String.prototype.match] with a global pattern answers [null] when
    nothing matched and the array of matches otherwise. *)
Definition String_match (s : jsstring) : option (list jsstring) :=
  match regex_chunks s with
  | [] => None
  | ms => Some ms
  end.

(** The subset of JavaScript numbers [parseInt] can answer here. *)
Inductive number :=
| NaN
| NegZero
| Num (z : Z).

(** Value of a code unit as a digit: [0-9], [a-z], [A-Z]. *)
Definition digitValue (c : Z) : option Z :=
  if (48 <=? c) && (c <=? 57) then Some (c - 48)
  else if (97 <=? c) && (c <=? 122) then Some (c - 87)
  else if (65 <=? c) && (c <=? 90) then Some (c - 55)
  else None.

Definition radixDigit (R c : Z) : option Z :=
  match digitValue c with
  | Some d => if d <? R then Some d else None
  | None => None
  end.

Fixpoint trimStart (s : jsstring) : jsstring :=
  match s with
  | c :: t => if isStrWhiteSpaceChar c then trimStart t else s
  | [] => []
  end.

(** The longest prefix made of radix-[R] digits, as digit values. *)
Fixpoint digitsPrefix (R : Z) (s : jsstring) : list Z :=
  match s with
  | c :: t =>
      match radixDigit R c with
      | Some d => d :: digitsPrefix R t
      | None => []
      end
  | [] => []
  end.

Definition mathInt (R : Z) (ds : list Z) : Z :=
  fold_left (fun acc d => acc * R + d) ds 0.

(** [Number.parseInt(string, radix)], following the steps of the language
    definition; [radix] is an integer.  The answer is exact as long as the
    integer read is below 2^53, which holds for the chunks of at most two
    code units the normalizer passes. *)
Definition parseInt (string : jsstring) (radix : Z) : number :=
  let S0 := trimStart string in
  let sign := match S0 with 45 :: _ => -1 | _ => 1 end in
  let S1 := match S0 with
            | c :: t => if (c =? 43) || (c =? 45) then t else S0
            | [] => S0
            end in
  if (radix =? 0) || ((2 <=? radix) && (radix <=? 36)) then
    let R := if radix =? 0 then 10 else radix in
    let stripPrefix := (radix =? 0) || (radix =? 16) in
    let '(R, S2) :=
      match S1 with
      | c0 :: c1 :: t =>
          if stripPrefix && (c0 =? 48) && ((c1 =? 120) || (c1 =? 88))
          then (16, t) else (R, S1)
      | _ => (R, S1)
      end in
    match digitsPrefix R S2 with
    | [] => NaN
    | ds =>
        let m := mathInt R ds in
        if m =? 0 then (if sign =? -1 then NegZero else Num 0)
        else Num (sign * m)
    end
  else NaN.

(** Conversion of a number to an element of a [Uint8Array] ([ToUint8]). *)
Definition ToUint8 (n : number) : Z :=
  match n with
  | NaN => 0
  | NegZero => 0
  | Num z => z mod 256
  end.

(** *** [TextEncoder.encode] *)

Definition isHighSurrogate (c : Z) : bool := (55296 <=? c) && (c <=? 56319).
Definition isLowSurrogate (c : Z) : bool := (56320 <=? c) && (c <=? 57343).

(** Code points of a string; a surrogate that is not part of a pair is
    replaced by U+FFFD. *)
Fixpoint codePoints (s : jsstring) : list Z :=
  match s with
  | [] => []
  | c :: t =>
      if isHighSurrogate c then
        match t with
        | d :: t' =>
            if isLowSurrogate d
            then (65536 + (c - 55296) * 1024 + (d - 56320)) :: codePoints t'
            else 65533 :: codePoints t
        | [] => [65533]
        end
      else if isLowSurrogate c then 65533 :: codePoints t
      else c :: codePoints t
  end.

Definition utf8_of_codePoint (cp : Z) : list Z :=
  if cp <? 128 then [cp]
  else if cp <? 2048 then
    [Z.lor 192 (Z.shiftr cp 6); Z.lor 128 (Z.land cp 63)]
  else if cp <? 65536 then
    [Z.lor 224 (Z.shiftr cp 12);
     Z.lor 128 (Z.land (Z.shiftr cp 6) 63);
     Z.lor 128 (Z.land cp 63)]
  else
    [Z.lor 240 (Z.shiftr cp 18);
     Z.lor 128 (Z.land (Z.shiftr cp 12) 63);
     Z.lor 128 (Z.land (Z.shiftr cp 6) 63);
     Z.lor 128 (Z.land cp 63)].

(** The bytes [new TextEncoder().encode(s)] holds. *)
Definition utf8_encode (s : jsstring) : list Z :=
  concat (map utf8_of_codePoint (codePoints s)).

End JsString.
Export JsString.

(** ** Exceptions, the store and the monad *)

Inductive exn :=
| Error (message : string)
| ReferenceError (message : string)
| RangeError (message : string)
| TypeError (message : string)
| DOMException (name : string).

Inductive result (A : Type) :=
| Ok (a : A)
| Throw (e : exn).
Arguments Ok {A} a.
Arguments Throw {A} e.

(** A [Uint8Array]: a window of [len] bytes starting at [byteOffset] in the
    [ArrayBuffer] stored at [buf]. *)
Record view := { buf : nat; byteOffset : nat; len : nat }.

(** The values a caller can hand over as [rawBody].  [null] and [undefined]
    (both [== null]) are the absent value, [None] of [option Value].  A
    [Buffer] is a [Uint8Array] of its own class; [VNumber], [VBoolean] and
    [VObject] stand for everything else. *)
Inductive Value :=
| VString (s : jsstring)
| VBuffer (b : view)
| VArrayBuffer (l : nat)
| VUint8Array (a : view)
| VNumber (n : Z)
| VBoolean (b : bool)
| VObject (className : string).

Record Algorithm := { name : string; namedCurve : option string }.

(** The platform: [crypto.subtle] as a black box working on copies of the
    bytes it is given, and whether a global [Buffer] exists. *)
Class Runtime := {
  CryptoKey : Type;
  subtle_importKey :
    string -> list Z -> Algorithm -> bool -> list string -> result CryptoKey;
  subtle_verify :
    Algorithm -> CryptoKey -> list Z -> list Z -> result bool;
  has_Buffer : bool
}.

Section Program.
Context `{RT : Runtime}.

(** Calls made to the cryptographic provider, in order. *)
Inductive Event :=
| EvImportKey (format : string) (keyData : list Z) (alg : Algorithm)
    (extractable : bool) (usages : list string)
| EvVerify (alg : Algorithm) (key : CryptoKey) (signature data : list Z).

Record state := { heap : list (list Z); trace : list Event }.

Definition M (A : Type) : Type := state -> result A * state.

#[global] Instance M_ret : MRet M := fun A a st => (Ok a, st).

#[global] Instance M_bind : MBind M := fun A B f m st =>
  match m st with
  | (Ok a, st') => f a st'
  | (Throw e, st') => (Throw e, st')
  end.

#[global] Instance M_fmap : FMap M := fun A B f m st =>
  match m st with
  | (Ok a, st') => (Ok (f a), st')
  | (Throw e, st') => (Throw e, st')
  end.

Definition throw {A} (e : exn) : M A := fun st => (Throw e, st).

(** [try { body } catch (ex) { handler ex }] *)
Definition try_catch {A} (body : M A) (handler : exn -> M A) : M A :=
  fun st =>
    match body st with
    | (Ok a, st') => (Ok a, st')
    | (Throw e, st') => handler e st'
    end.

(** *** Typed arrays over the store *)

Definition buffer_bytes (h : list (list Z)) (l : nat) : list Z :=
  default [] (h !! l).

(** The bytes seen through a view. *)
Definition read (h : list (list Z)) (v : view) : list Z :=
  take (len v) (drop (byteOffset v) (buffer_bytes h v.(buf))).

(** Allocation of a new [ArrayBuffer] holding [bs], and the view on all
    of it. *)
Definition alloc (bs : list Z) : M view := fun st =>
  (Ok {| buf := length (heap st); byteOffset := 0; len := length bs |},
   {| heap := heap st ++ [bs]; trace := trace st |}).

(** The arguments [new Uint8Array(...)] is called with. *)
Inductive ctor_arg :=
| NoArg
| Length (n : nat)
| Numbers (l : list number)
| TypedArray (src : view)
| FromArrayBuffer (l : nat).

(** [new Uint8Array(arg)]: every form allocates a new buffer, except the
    one given an [ArrayBuffer], which is a view on that buffer. *)
Definition new_Uint8Array (arg : ctor_arg) : M view :=
  match arg with
  | NoArg => alloc []
  | Length n => alloc (replicate n 0)
  | Numbers l => alloc (map ToUint8 l)
  | TypedArray src => fun st => alloc (read (heap st) src) st
  | FromArrayBuffer l => fun st =>
      (Ok {| buf := l; byteOffset := 0;
             len := length (buffer_bytes (heap st) l) |}, st)
  end.

(** [new TextEncoder().encode(s)] *)
Definition TextEncoder_encode (s : jsstring) : M view :=
  alloc (utf8_encode s).

Definition write_at (i : nat) (src old : list Z) : list Z :=
  take i old ++ src ++ drop (i + length src) old.

(** [target.set(source, offset)]: copies the elements of [source] into
    [target] from index [offset]; a [RangeError] when they do not fit. *)
Definition TypedArray_set (target source : view) (offset : nat) : M unit :=
  fun st =>
    if decide (len source + offset <= len target)%nat then
      let src := read (heap st) source in
      let old := buffer_bytes (heap st) target.(buf) in
      (Ok tt,
       {| heap := <[target.(buf) :=
                     write_at (byteOffset target + offset) src old]> (heap st);
          trace := trace st |})
    else (Throw (RangeError "offset is out of bounds"), st).

(** [Buffer.isBuffer(value)]; a [ReferenceError] where the runtime has no
    [Buffer]. *)
Definition Buffer_isBuffer (v : Value) : M bool :=
  if has_Buffer then
    mret (match v with VBuffer _ => true | _ => false end)
  else throw (ReferenceError "Buffer is not defined").

Definition instanceof_ArrayBuffer (v : Value) : option nat :=
  match v with VArrayBuffer l => Some l | _ => None end.

(** [Buffer] extends [Uint8Array]. *)
Definition instanceof_Uint8Array (v : Value) : option view :=
  match v with
  | VBuffer b => Some b
  | VUint8Array a => Some a
  | _ => None
  end.

(** *** The provider's two operations, as effects *)

Definition importKey (format : string) (keyData : view) (alg : Algorithm)
    (extractable : bool) (usages : list string) : M CryptoKey :=
  fun st =>
    let bytes := read (heap st) keyData in
    (subtle_importKey format bytes alg extractable usages,
     {| heap := heap st;
        trace := trace st
                 ++ [EvImportKey format bytes alg extractable usages] |}).

Definition verify (alg : Algorithm) (key : CryptoKey) (signature data : view)
    : M bool :=
  fun st =>
    let sig := read (heap st) signature in
    let msg := read (heap st) data in
    (subtle_verify alg key sig msg,
     {| heap := heap st;
        trace := trace st ++ [EvVerify alg key sig msg] |}).

(** *** The three functions of the source *)

Definition valueToUint8Array (value : option Value) (format : option string)
    : M view :=
  match value with
  | None => new_Uint8Array NoArg
  | Some v =>
      match v with
      | VString s =>
          if decide (format = Some "hex"%string) then
            match String_match s with
            | None => throw (Error "Value is not a valid hex string")
            | Some matches =>
                let hexVal := map (fun byte => parseInt byte 16) matches in
                new_Uint8Array (Numbers hexVal)
            end
          else TextEncoder_encode s
      | _ =>
          early ← try_catch
                    (isBuf ← Buffer_isBuffer v;
                     if isBuf : bool then
                       match instanceof_Uint8Array v with
                       | Some b => Some <$> new_Uint8Array (TypedArray b)
                       | None => throw (TypeError "not a typed array")
                       end
                     else mret None)
                    (fun ex => mret None);
          match early with
          | Some r => mret r
          | None =>
              match instanceof_ArrayBuffer v with
              | Some l => new_Uint8Array (FromArrayBuffer l)
              | None =>
                  match instanceof_Uint8Array v with
                  | Some a => mret a
                  | None =>
                      throw (Error "Unrecognized value type, must be one of: string, Buffer, ArrayBuffer, Uint8Array")
                  end
              end
          end
      end
  end.

Definition concatUint8Arrays (arr1 arr2 : view) : M view :=
  merged ← new_Uint8Array (Length (len arr1 + len arr2));
  _ ← TypedArray_set merged arr1 0;
  _ ← TypedArray_set merged arr2 (len arr1);
  mret merged.

Definition ed25519_import : Algorithm :=
  {| name := "ed25519"; namedCurve := Some "ed25519"%string |}.
Definition ed25519_verify : Algorithm :=
  {| name := "ed25519"; namedCurve := None |}.

(** The body of the [try] block of [verifyKey]. *)
Definition verifyKey_body (rawBody : option Value)
    (signature timestamp : jsstring) (clientPublicKey : jsstring + CryptoKey)
    : M bool :=
  timestampData ← valueToUint8Array (Some (VString timestamp)) None;
  bodyData ← valueToUint8Array rawBody None;
  message ← concatUint8Arrays timestampData bodyData;
  publicKey ←
    match clientPublicKey with
    | inl hex =>
        keyData ← valueToUint8Array (Some (VString hex)) (Some "hex"%string);
        importKey "raw" keyData ed25519_import false ["verify"%string]
    | inr key => mret key
    end;
  sig ← valueToUint8Array (Some (VString signature)) (Some "hex"%string);
  isValid ← verify ed25519_verify publicKey sig message;
  mret isValid.

Definition verifyKey (rawBody : option Value)
    (signature timestamp : jsstring) (clientPublicKey : jsstring + CryptoKey)
    : M bool :=
  try_catch (verifyKey_body rawBody signature timestamp clientPublicKey)
            (fun ex => mret false).

End Program.

(** ** What the results hold

    The bytes each normalization stands for, read off the code above; the
    theorems relate the stateful functions to them. *)

Section Meaning.
Context `{RT : Runtime}.

(** A view lies within an existing buffer. *)
Definition wf_view (h : list (list Z)) (v : view) : Prop :=
  exists bs, h !! v.(buf) = Some bs
             /\ (byteOffset v + len v <= length bs)%nat.

(** The bytes a byte-sequence value holds; [None] for any other value. *)
Definition bytes_of_value (h : list (list Z)) (v : Value)
    : option (list Z) :=
  match v with
  | VBuffer b => Some (read h b)
  | VUint8Array a => Some (read h a)
  | VArrayBuffer l => Some (buffer_bytes h l)
  | _ => None
  end.

(** An input refers only to buffers of the store. *)
Definition wf_value (h : list (list Z)) (value : option Value) : Prop :=
  match value with
  | Some (VBuffer b) => wf_view h b
  | Some (VUint8Array a) => wf_view h a
  | Some (VArrayBuffer l) => (l < length h)%nat
  | _ => True
  end.

(** The view [alloc bs] answers, and the state it leaves. *)
Definition fresh_view (h : list (list Z)) (bs : list Z) : view :=
  {| buf := length h; byteOffset := 0; len := length bs |}.

Definition push (st : state) (bs : list Z) : state :=
  {| heap := heap st ++ [bs]; trace := trace st |}.

(** A computation writes to no buffer that existed before it: the store
    only grows at its end. *)
Definition frames {A} (m : M A) : Prop :=
  forall st, heap st `prefix_of` heap (snd (m st)).

Definition not_hex_error : exn := Error "Value is not a valid hex string".

Definition unrecognized_error : exn :=
  Error "Unrecognized value type, must be one of: string, Buffer, ArrayBuffer, Uint8Array".

(** The bytes [valueToUint8Array(s, "hex")] holds: one per chunk. *)
Definition hex_bytes (s : jsstring) : result (list Z) :=
  match String_match s with
  | None => Throw not_hex_error
  | Some ms => Ok (map (fun byte => ToUint8 (parseInt byte 16)) ms)
  end.

(** The bytes [valueToUint8Array(value, format)] holds. *)
Definition value_bytes (h : list (list Z)) (value : option Value)
    (format : option string) : result (list Z) :=
  match value with
  | None => Ok []
  | Some (VString s) =>
      if decide (format = Some "hex"%string) then hex_bytes s
      else Ok (utf8_encode s)
  | Some v =>
      match bytes_of_value h v with
      | Some bs => Ok bs
      | None => Throw unrecognized_error
      end
  end.

(** The key handle [verifyKey] verifies with, and the provider call made
    to obtain it. *)
Definition resolve_key (clientPublicKey : jsstring + CryptoKey)
    : result CryptoKey * list Event :=
  match clientPublicKey with
  | inr key => (Ok key, [])
  | inl hex =>
      match hex_bytes hex with
      | Throw e => (Throw e, [])
      | Ok kb =>
          (subtle_importKey "raw" kb ed25519_import false ["verify"%string],
           [EvImportKey "raw" kb ed25519_import false ["verify"%string]])
      end
  end.

(** Steps 5 and 6: decoding the signature and asking the provider. *)
Definition signature_outcome (key : CryptoKey) (signature : jsstring)
    (message : list Z) : result bool * list Event :=
  match hex_bytes signature with
  | Throw e => (Throw e, [])
  | Ok sig =>
      (subtle_verify ed25519_verify key sig message,
       [EvVerify ed25519_verify key sig message])
  end.

(** Outcome of the [try] block of [verifyKey] and the provider calls it
    makes, as a function of the bytes involved. *)
Definition verify_outcome (h : list (list Z)) (rawBody : option Value)
    (signature timestamp : jsstring) (clientPublicKey : jsstring + CryptoKey)
    : result bool * list Event :=
  match value_bytes h rawBody None with
  | Throw e => (Throw e, [])
  | Ok body =>
      let message := utf8_encode timestamp ++ body in
      match resolve_key clientPublicKey with
      | (Throw e, evs) => (Throw e, evs)
      | (Ok key, evs) =>
          let '(r, evs') := signature_outcome key signature message in
          (r, evs ++ evs')
      end
  end.

(** The boolean a caller of [verifyKey] gets for an outcome. *)
Definition collapse (r : result bool) : bool :=
  match r with
  | Ok b => b
  | Throw _ => false
  end.

(** Whether [needle] occurs in [text]. *)
Definition mentions (needle text : string) : bool :=
  match String.index 0 needle text with
  | Some _ => true
  | None => false
  end.

End Meaning.

(** ** A stand-in provider

    A deterministic provider used to run the model on concrete inputs: a key
    handle is the 32 raw bytes it was imported from, and the only signature
    accepted for a message under a key is [fake_signature], 64 bytes long. *)

Module Fake.

Definition fake_signature (key msg : list Z) : list Z :=
  take 63 (msg ++ key ++ replicate 63 0) ++ [Z.of_nat (length msg) mod 16].

Definition fake_runtime : Runtime := {|
  CryptoKey := list Z;
  subtle_importKey := fun format keyData alg extractable usages =>
    if decide (format = "raw"%string /\ length keyData = 32%nat)
    then Ok keyData else Throw (DOMException "DataError");
  subtle_verify := fun alg key sig msg =>
    Ok (bool_decide (sig = fake_signature key msg));
  has_Buffer := true
|}.

Definition hexDigit (d : Z) : Z := if d <? 10 then 48 + d else 87 + d.

(** Lower-case hex encoding, two digits per byte. *)
Definition hex_of_bytes (bs : list Z) : jsstring :=
  concat (map (fun b => [hexDigit (b / 16); hexDigit (b mod 16)]) bs).

Definition key32 : list Z := map Z.of_nat (seq 1 32).

Definition st0 : @state fake_runtime := {| heap := []; trace := [] |}.

(** A request: timestamp, body, and the signature the stand-in provider
    accepts for them under [key32], hex encoded. *)
Definition timestamp0 : jsstring := js "1699999999".
Definition body0 : jsstring := js "hello".
Definition signature0 : list Z :=
  fake_signature key32 (utf8_encode timestamp0 ++ utf8_encode body0).
Definition signature_hex : jsstring := hex_of_bytes signature0.

(** A store with two buffers, the first holding the body's bytes from
    its third byte on, and the view on those bytes. *)
Definition st1 : @state fake_runtime :=
  {| heap := [[0; 0] ++ utf8_encode body0 ++ [9]; [1; 2; 3; 4]];
     trace := [] |}.

Definition body_view : view := {| buf := 0; byteOffset := 2; len := 5 |}.

End Fake.

(** ** The platform's Ed25519

    Verification as RFC 8032 section 5.1.7 defines it, with SHA-512 as FIPS
    180-4 defines it: what [crypto.subtle] computes for the algorithm name
    "ed25519". *)

Module Sha512.

Definition w64 : Z := 18446744073709551616.

Definition add64 (x y : Z) : Z := (x + y) mod w64.

Definition rotr (n x : Z) : Z :=
  Z.lor (Z.shiftr x n) (Z.shiftl x (64 - n) mod w64).

Definition Ch (x y z : Z) : Z :=
  Z.lxor (Z.land x y) (Z.land (Z.lxor x (w64 - 1)) z).

Definition Maj (x y z : Z) : Z :=
  Z.lxor (Z.lxor (Z.land x y) (Z.land x z)) (Z.land y z).

Definition Sigma0 (x : Z) : Z :=
  Z.lxor (Z.lxor (rotr 28 x) (rotr 34 x)) (rotr 39 x).

Definition Sigma1 (x : Z) : Z :=
  Z.lxor (Z.lxor (rotr 14 x) (rotr 18 x)) (rotr 41 x).

Definition sigma0 (x : Z) : Z :=
  Z.lxor (Z.lxor (rotr 1 x) (rotr 8 x)) (Z.shiftr x 7).

Definition sigma1 (x : Z) : Z :=
  Z.lxor (Z.lxor (rotr 19 x) (rotr 61 x)) (Z.shiftr x 6).

(** The eighty round constants. *)
Definition K : list Z :=
  [
   4794697086780616226; 8158064640168781261; 13096744586834688815;
   16840607885511220156; 4131703408338449720; 6480981068601479193;
   10538285296894168987; 12329834152419229976; 15566598209576043074;
   1334009975649890238; 2608012711638119052; 6128411473006802146;
   8268148722764581231; 9286055187155687089; 11230858885718282805;
   13951009754708518548; 16472876342353939154; 17275323862435702243;
   1135362057144423861; 2597628984639134821; 3308224258029322869;
   5365058923640841347; 6679025012923562964; 8573033837759648693;
   10970295158949994411; 12119686244451234320; 12683024718118986047;
   13788192230050041572; 14330467153632333762; 15395433587784984357;
   489312712824947311; 1452737877330783856; 2861767655752347644;
   3322285676063803686; 5560940570517711597; 5996557281743188959;
   7280758554555802590; 8532644243296465576; 9350256976987008742;
   10552545826968843579; 11727347734174303076; 12113106623233404929;
   14000437183269869457; 14369950271660146224; 15101387698204529176;
   15463397548674623760; 17586052441742319658; 1182934255886127544;
   1847814050463011016; 2177327727835720531; 2830643537854262169;
   3796741975233480872; 4115178125766777443; 5681478168544905931;
   6601373596472566643; 7507060721942968483; 8399075790359081724;
   8693463985226723168; 9568029438360202098; 10144078919501101548;
   10430055236837252648; 11840083180663258601; 13761210420658862357;
   14299343276471374635; 14566680578165727644; 15097957966210449927;
   16922976911328602910; 17689382322260857208; 500013540394364858;
   748580250866718886; 1242879168328830382; 1977374033974150939;
   2944078676154940804; 3659926193048069267; 4368137639120453308;
   4836135668995329356; 5532061633213252278; 6448918945643986474;
   6902733635092675308; 7801388544844847127
  ].

(** The initial hash value. *)
Definition H0 : list Z :=
  [
   7640891576956012808; 13503953896175478587;
   4354685564936845355; 11912009170470909681;
   5840696475078001361; 11170449401992604703;
   2270897969802886507; 6620516959819538809
  ].

(** The [n] bytes of [x], most significant first. *)
Fixpoint be_bytes (n : nat) (x : Z) : list Z :=
  match n with
  | O => []
  | S n' => be_bytes n' (x / 256) ++ [x mod 256]
  end.

Definition be_word (bs : list Z) : Z :=
  fold_left (fun acc b => acc * 256 + b) bs 0.

(** The message, a one bit, zeros up to 112 modulo 128 bytes, and the
    length in bits on sixteen bytes. *)
Definition pad (msg : list Z) : list Z :=
  let l := Z.of_nat (length msg) in
  msg ++ [128] ++ replicate (Z.to_nat ((111 - l) mod 128)) 0
      ++ be_bytes 16 (8 * l).

(** [bs] cut into [n] pieces of [size] elements. *)
Fixpoint pieces {A} (size n : nat) (bs : list A) : list (list A) :=
  match n with
  | O => []
  | S n' => take size bs :: pieces size n' (drop size bs)
  end.

(** The message schedule, the latest word first: [n] more words. *)
Fixpoint extend (n : nat) (w : list Z) : list Z :=
  match n with
  | O => w
  | S n' =>
      let next :=
        add64 (add64 (add64 (sigma1 (nth 1 w 0)) (nth 6 w 0))
                 (sigma0 (nth 14 w 0))) (nth 15 w 0) in
      extend n' (next :: w)
  end.

Definition schedule (block : list Z) : list Z :=
  rev (extend 64 (rev (map be_word (pieces 8 16 block)))).

Definition round (s : list Z) (kw : Z * Z) : list Z :=
  match s with
  | [a; b; c; d; e; f; g; h] =>
      let t1 := add64 (add64 (add64 (add64 h (Sigma1 e)) (Ch e f g)) (fst kw))
                  (snd kw) in
      let t2 := add64 (Sigma0 a) (Maj a b c) in
      [add64 t1 t2; a; b; c; add64 d t1; e; f; g]
  | _ => s
  end.

Definition compress (h : list Z) (block : list Z) : list Z :=
  let s := fold_left round (combine K (schedule block)) h in
  map (fun xy => add64 (fst xy) (snd xy)) (combine h s).

(** The 64 bytes of the digest. *)
Definition sha512 (msg : list Z) : list Z :=
  let padded := pad msg in
  let blocks := pieces 128 (length padded / 128) padded in
  concat (map (be_bytes 8) (fold_left compress blocks H0)).

End Sha512.

Module Ed25519.

(** The prime of the field, 2^255 - 19, and the order of the base point. *)
Definition p : Z :=
  57896044618658097711785492504343953926634992332820282019728792003956564819949.

Definition L : Z :=
  7237005577332262213973186563042994240857116359379907606001950938285454250989.

(** Field elements are [bigZ] numbers reduced modulo [p]. *)
Definition q : bigZ := BigZ.of_Z p.

Definition fmul (x y : bigZ) : bigZ := (x * y mod q)%bigZ.

(** [x ^ e] modulo [p], by squaring. *)
Fixpoint pow_pos (x : bigZ) (e : positive) : bigZ :=
  match e with
  | xH => (x mod q)%bigZ
  | xO e' => let y := pow_pos x e' in fmul y y
  | xI e' => let y := pow_pos x e' in fmul (fmul y y) x
  end.

Definition pow (x : bigZ) (e : Z) : bigZ :=
  match e with
  | Zpos e' => pow_pos x e'
  | _ => 1%bigZ
  end.

(** The curve's constant, -121665/121666. *)
Definition d : bigZ :=
  BigZ.of_Z 37095705934669439343138083508754565189542113879843219016388785533085940283555.

(** The x coordinate of the point of ordinate [y] whose x has the parity
    [sign]; [None] when there is none. *)
Definition recover_x (y : bigZ) (sign : Z) : option bigZ :=
  if (q <=? y)%bigZ then None else
  let u := ((y * y - 1) mod q)%bigZ in
  let v := ((d * y * y + 1) mod q)%bigZ in
  let x := fmul (fmul u (pow v 3)) (pow (fmul u (pow v 7)) ((p - 5) / 8)) in
  let vxx := fmul (fmul v x) x in
  let root :=
    if (vxx =? u)%bigZ then Some x
    else if (vxx =? (q - u) mod q)%bigZ
         then Some (fmul x (pow 2%bigZ ((p - 1) / 4)))
         else None in
  match root with
  | None => None
  | Some x =>
      if (x =? 0)%bigZ && (sign =? 1) then None
      else if BigZ.to_Z (x mod 2)%bigZ =? sign then Some x
           else Some (q - x)%bigZ
  end.

(** Points in extended coordinates (X, Y, Z, T). *)
Definition point : Type := bigZ * bigZ * bigZ * bigZ.

Definition point_add (P Q : point) : point :=
  let '(X1, Y1, Z1, T1) := P in
  let '(X2, Y2, Z2, T2) := Q in
  let A := fmul (Y1 - X1) (Y2 - X2) in
  let B := fmul (Y1 + X1) (Y2 + X2) in
  let C := fmul (fmul (fmul T1 2) d) T2 in
  let D := fmul (fmul Z1 2) Z2 in
  let E := (B - A)%bigZ in
  let F := (D - C)%bigZ in
  let G := (D + C)%bigZ in
  let H := (B + A)%bigZ in
  (fmul E F, fmul G H, fmul F G, fmul E H).

Definition neutral : point := (0, 1, 1, 0)%bigZ.

Fixpoint point_mul_pos (s : positive) (P : point) : point :=
  match s with
  | xH => P
  | xO s' => let Q := point_mul_pos s' P in point_add Q Q
  | xI s' => let Q := point_mul_pos s' P in point_add (point_add Q Q) P
  end.

Definition point_mul (s : Z) (P : point) : point :=
  match s with
  | Zpos s' => point_mul_pos s' P
  | _ => neutral
  end.

Definition point_eqb (P Q : point) : bool :=
  let '(X1, Y1, Z1, _) := P in
  let '(X2, Y2, Z2, _) := Q in
  (((X1 * Z2 - X2 * Z1) mod q =? 0) && ((Y1 * Z2 - Y2 * Z1) mod q =? 0))%bigZ.

(** The value of a byte sequence, least significant byte first. *)
Definition le_int (bs : list Z) : Z :=
  fold_right (fun b acc => b + 256 * acc) 0 bs.

Definition two255 : Z :=
  57896044618658097711785492504343953926634992332820282019728792003956564819968.

Definition decode_point (bs : list Z) : option point :=
  if negb (length bs =? 32)%nat then None else
  let n := le_int bs in
  let y := BigZ.of_Z (n mod two255) in
  match recover_x y (n / two255) with
  | None => None
  | Some x => Some (x, y, 1%bigZ, fmul x y)
  end.

(** The base point, of ordinate 4/5. *)
Definition base_x : bigZ :=
  BigZ.of_Z 15112221349535400772501151409588531511454012693041857206046113283949847762202.
Definition base_y : bigZ :=
  BigZ.of_Z 46316835694926478169428394003475163141307993866256225615783033603165251855960.
Definition base : point := (base_x, base_y, 1%bigZ, fmul base_x base_y).

(** Whether [sig] is a signature of [msg] under the public key [pk]. *)
Definition verify (pk msg sig : list Z) : bool :=
  if negb (length sig =? 64)%nat then false else
  match decode_point pk, decode_point (take 32 sig) with
  | Some A, Some R =>
      let S := le_int (drop 32 sig) in
      if L <=? S then false else
      let h := le_int (Sha512.sha512 (take 32 sig ++ pk ++ msg)) mod L in
      point_eqb (point_mul S base) (point_add R (point_mul h A))
  | _, _ => false
  end.

End Ed25519.

(** [crypto.subtle] restricted to what [verifyKey] asks of it: raw Ed25519
    public keys of 32 bytes, imported for verification only, and Ed25519
    verification; a key handle is the key's 32 bytes.  The runtime is
    Node's, which has [Buffer]. *)
Definition ed25519_runtime : Runtime := {|
  CryptoKey := list Z;
  subtle_importKey := fun format keyData alg extractable usages =>
    if negb (String.eqb (name alg) "ed25519")
    then Throw (DOMException "NotSupportedError")
    else if negb (String.eqb format "raw")
    then Throw (DOMException "NotSupportedError")
    else if negb (forallb (String.eqb "verify") usages)
    then Throw (DOMException "SyntaxError")
    else if negb (length keyData =? 32)%nat
    then Throw (DOMException "DataError")
    else Ok keyData;
  subtle_verify := fun alg key sig msg =>
    if String.eqb (name alg) "ed25519"
    then Ok (Ed25519.verify key msg sig)
    else Throw (DOMException "NotSupportedError");
  has_Buffer := true
|}.

(** A request signed with Ed25519: the public key, and the signature of
    the message "1699999999hello" (timestamp "1699999999", body "hello")
    under it. *)
Module Signed.

Definition timestamp : jsstring := js "1699999999".
Definition body : jsstring := js "hello".

Definition public_key : list Z :=
  [
   123; 157; 168; 24; 218; 94; 216; 218; 57; 252; 131; 129; 78; 244; 229; 236;
   148; 44; 106; 248; 87; 124; 147; 200; 2; 235; 112; 5; 68; 205; 193; 5
  ].

Definition signature : list Z :=
  [
   70; 222; 88; 150; 48; 94; 163; 228; 171; 128; 189; 49; 232; 134; 93; 225;
   75; 167; 52; 102; 222; 233; 136; 56; 192; 233; 202; 156; 12; 114; 218; 237;
   138; 160; 230; 215; 135; 231; 76; 212; 238; 250; 71; 184; 59; 7; 104; 110;
   179; 162; 30; 155; 37; 47; 48; 210; 25; 165; 148; 85; 166; 93; 157; 5
  ].

Definition public_key_hex : jsstring :=
  js "7b9da818da5ed8da39fc83814ef4e5ec942c6af8577c93c802eb700544cdc105".

Definition signature_hex : jsstring :=
  js "46de5896305ea3e4ab80bd31e8865de14ba73466dee98838c0e9ca9c0c72daed8aa0e6d787e74cd4eefa47b83b07686eb3a21e9b252f30d219a59455a65d9d05".

(** The signature with the leading zero of its last byte left out: 127
    characters. *)
Definition signature_odd : jsstring :=
  js "46de5896305ea3e4ab80bd31e8865de14ba73466dee98838c0e9ca9c0c72daed8aa0e6d787e74cd4eefa47b83b07686eb3a21e9b252f30d219a59455a65d9d5".

(** The signature and the key with the last byte, 05, written "5z": 128
    and 64 characters, the last of which is no hex digit. *)
Definition signature_nonhex : jsstring :=
  js "46de5896305ea3e4ab80bd31e8865de14ba73466dee98838c0e9ca9c0c72daed8aa0e6d787e74cd4eefa47b83b07686eb3a21e9b252f30d219a59455a65d9d5z".

Definition public_key_nonhex : jsstring :=
  js "7b9da818da5ed8da39fc83814ef4e5ec942c6af8577c93c802eb700544cdc15z".

Definition st0 : @state ed25519_runtime := {| heap := []; trace := [] |}.

End Signed.


(** ** Well-formed hex strings *)

(** Value of a hex digit, 0 for any other code unit. *)
Definition hexValue (c : Z) : Z := default 0 (radixDigit 16 c).

(** The string made of the given pairs of code units, in order. *)
Definition pairs_string (ps : list (Z * Z)) : jsstring :=
  concat (map (fun p => [fst p; snd p]) ps).

(** The byte a pair of hex digits writes: high digit first. *)
Definition pair_byte (p : Z * Z) : Z := 16 * hexValue (fst p) + hexValue (snd p).

(** A string without its line terminators. *)
Definition strip_line_terminators (s : jsstring) : jsstring :=
  List.filter (fun c => negb (isLineTerminator c)) s.

Definition is_verify `{RT : Runtime} (ev : Event) : bool :=
  match ev with
  | EvVerify _ _ _ _ => true
  | EvImportKey _ _ _ _ _ => false
  end.

(** ** Store and monad lemmas *)

Section StoreLemmas.
Context `{RT : Runtime}.

Lemma bind_run {A B} (m : M A) (f : A -> M B) (st : state) :
  (m ≫= f) st = match m st with
                | (Ok a, st') => f a st'
                | (Throw e, st') => (Throw e, st')
                end.
Proof. reflexivity. Qed.

Lemma bind_ok {A B} (m : M A) (f : A -> M B) st a st' :
  m st = (Ok a, st') -> (m ≫= f) st = f a st'.
Proof. intros Hm. rewrite bind_run, Hm. reflexivity. Qed.

Lemma bind_throw {A B} (m : M A) (f : A -> M B) st e st' :
  m st = (Throw e, st') -> (m ≫= f) st = (Throw e, st').
Proof. intros Hm. rewrite bind_run, Hm. reflexivity. Qed.

Lemma buffer_bytes_app h k l :
  (l < length h)%nat -> buffer_bytes (h ++ k) l = buffer_bytes h l.
Proof.
  intros Hl. unfold buffer_bytes. by rewrite lookup_app_l.
Qed.

Lemma buffer_bytes_fresh h bs : buffer_bytes (h ++ [bs]) (length h) = bs.
Proof.
  unfold buffer_bytes. rewrite lookup_app_r by lia.
  by rewrite Nat.sub_diag.
Qed.

Lemma read_app h k v :
  (buf v < length h)%nat -> read (h ++ k) v = read h v.
Proof. intros Hl. unfold read. by rewrite buffer_bytes_app. Qed.

Lemma read_fresh h bs : read (h ++ [bs]) (fresh_view h bs) = bs.
Proof.
  unfold read, fresh_view; simpl. rewrite buffer_bytes_fresh.
  rewrite drop_0. apply firstn_all.
Qed.

Lemma wf_view_lt h v : wf_view h v -> (buf v < length h)%nat.
Proof. intros (bs & Hbs & _). by eapply lookup_lt_Some. Qed.

Lemma wf_view_prefix h h' v :
  h `prefix_of` h' -> wf_view h v -> wf_view h' v.
Proof.
  intros [k ->] (bs & Hbs & Hle). exists bs. split; [|done].
  by apply lookup_app_l_Some.
Qed.

Lemma read_prefix h h' v :
  h `prefix_of` h' -> wf_view h v -> read h' v = read h v.
Proof. intros [k ->] Hwf. apply read_app. by apply wf_view_lt. Qed.

Lemma read_length h v : wf_view h v -> length (read h v) = len v.
Proof.
  intros (bs & Hbs & Hle). unfold read, buffer_bytes. rewrite Hbs; simpl.
  rewrite length_take, length_drop. lia.
Qed.

Lemma wf_fresh_view h bs : wf_view (h ++ [bs]) (fresh_view h bs).
Proof.
  exists bs. split; [|simpl; lia]. simpl.
  rewrite lookup_app_r by lia. by rewrite Nat.sub_diag.
Qed.

Lemma wf_value_prefix h h' value :
  h `prefix_of` h' -> wf_value h value -> wf_value h' value.
Proof.
  intros Hp. destruct value as [[]|]; simpl; eauto using wf_view_prefix.
  destruct Hp as [k ->]. rewrite length_app. lia.
Qed.

Lemma bytes_of_value_prefix h h' v :
  h `prefix_of` h' -> wf_value h (Some v) ->
  bytes_of_value h' v = bytes_of_value h v.
Proof.
  intros Hp Hwf. destruct v; simpl in *; try done.
  - f_equal. by apply read_prefix.
  - destruct Hp as [k ->]. f_equal. by apply buffer_bytes_app.
  - f_equal. by apply read_prefix.
Qed.

Lemma value_bytes_prefix h h' value format :
  h `prefix_of` h' -> wf_value h value ->
  value_bytes h' value format = value_bytes h value format.
Proof.
  intros Hp Hwf. destruct value as [v|]; [|done].
  unfold value_bytes.
  rewrite (bytes_of_value_prefix h h' v Hp Hwf). reflexivity.
Qed.

(** *** Frames *)

Lemma frames_ret {A} (a : A) : frames (mret a).
Proof. intros st. reflexivity. Qed.

Lemma frames_throw {A} (e : exn) : frames (@throw _ A e).
Proof. intros st. reflexivity. Qed.

Lemma frames_bind {A B} (m : M A) (f : A -> M B) :
  frames m -> (forall a, frames (f a)) -> frames (m ≫= f).
Proof.
  intros Hm Hf st. rewrite bind_run. specialize (Hm st).
  destruct (m st) as [[a|e] st1]; simpl in *; [|done].
  etrans; [exact Hm|apply Hf].
Qed.

Lemma frames_try_catch {A} (m : M A) (handler : exn -> M A) :
  frames m -> (forall e, frames (handler e)) -> frames (try_catch m handler).
Proof.
  intros Hm Hh st. unfold try_catch. specialize (Hm st).
  destruct (m st) as [[a|e] st1]; simpl in *; [done|].
  etrans; [exact Hm|apply Hh].
Qed.

Lemma frames_alloc bs : frames (alloc bs).
Proof. intros st. simpl. by exists [bs]. Qed.

Lemma frames_importKey format keyData alg extractable usages :
  frames (importKey format keyData alg extractable usages).
Proof. intros st. reflexivity. Qed.

Lemma frames_verify alg key signature data :
  frames (verify alg key signature data).
Proof. intros st. reflexivity. Qed.

End StoreLemmas.

(** ** Chunking and hex decoding *)

Section HexLemmas.
Context `{RT : Runtime}.

Lemma regex_chunks_nil s :
  regex_chunks s = [] <-> Forall (fun c => isLineTerminator c = true) s.
Proof.
  induction s as [|a t IH]; simpl.
  - split; [constructor|done].
  - destruct (isLineTerminator a) eqn:Ha.
    + rewrite IH. split; [by constructor|by inversion 1].
    + split.
      * destruct t as [|b t']; [done|]. by destruct (isLineTerminator b).
      * inversion 1; congruence.
Qed.

(** Without line terminators the chunks are the successive pairs, the last
    one a single code unit when the length is odd. *)
Lemma regex_chunks_length_aux s :
  (Forall (fun c => isLineTerminator c = false) s ->
   length (regex_chunks s) = ((length s + 1) / 2)%nat)
  /\ (forall a, isLineTerminator a = false ->
      Forall (fun c => isLineTerminator c = false) s ->
      length (regex_chunks (a :: s)) = ((length s + 2) / 2)%nat).
Proof.
  induction s as [|b t [IH1 IH2]].
  - split; [done|]. intros a Ha _. simpl. by rewrite Ha.
  - split.
    + intros H. inversion H; subst. rewrite IH2 by done.
      cbn [length]. f_equal; lia.
    + intros a Ha H. inversion H as [|? ? Hb Ht]; subst.
      cbn [regex_chunks]. rewrite Ha, Hb. cbn [length].
      rewrite IH1 by done.
      replace (S (length t) + 2)%nat with (length t + 1 + 1 * 2)%nat by lia.
      rewrite Nat.div_add by lia. lia.
Qed.

Lemma regex_chunks_length s :
  Forall (fun c => isLineTerminator c = false) s ->
  length (regex_chunks s) = ((length s + 1) / 2)%nat.
Proof. apply regex_chunks_length_aux. Qed.

Lemma String_match_None s :
  String_match s = None <-> Forall (fun c => isLineTerminator c = true) s.
Proof.
  rewrite <- regex_chunks_nil. unfold String_match.
  by destruct (regex_chunks s).
Qed.

Lemma String_match_Some s ms :
  String_match s = Some ms -> ms = regex_chunks s.
Proof.
  unfold String_match. destruct (regex_chunks s); [done|]. congruence.
Qed.

Lemma hex_bytes_Throw s e :
  hex_bytes s = Throw e
  <-> e = not_hex_error /\ Forall (fun c => isLineTerminator c = true) s.
Proof.
  rewrite <- String_match_None. unfold hex_bytes.
  destruct (String_match s) as [ms|].
  - split; [done|by intros [_ ?]].
  - split; [by intros [= <-]|by intros [-> _]].
Qed.

Lemma hex_bytes_Ok s bs :
  hex_bytes s = Ok bs
  <-> bs = map (fun byte => ToUint8 (parseInt byte 16)) (regex_chunks s)
      /\ Exists (fun c => isLineTerminator c = false) s.
Proof.
  unfold hex_bytes. destruct (String_match s) as [ms|] eqn:Hm.
  - pose proof (String_match_Some _ _ Hm) as ->.
    assert (Exists (fun c => isLineTerminator c = false) s) as Hex.
    { destruct (decide (Forall (fun c => isLineTerminator c = true) s))
        as [Hall|Hn].
      - apply String_match_None in Hall. congruence.
      - apply (not_Forall_Exists _) in Hn.
        eapply Exists_impl; [exact Hn|].
        intros c Hc. simpl in Hc. by destruct (isLineTerminator c). }
    split; [by intros [= <-]|by intros [-> _]].
  - split; [done|]. intros [_ Hex]. apply String_match_None in Hm.
    apply Exists_exists in Hex as (c & Hc & Hf).
    rewrite Forall_forall in Hm. specialize (Hm c Hc). congruence.
Qed.

(** A chunk starting with anything but white space, a sign or a hex digit
    reads as [NaN], hence as the byte 0. *)
Lemma parseInt_NaN a rest :
  isStrWhiteSpaceChar a = false -> a <> 43 -> a <> 45 ->
  radixDigit 16 a = None ->
  parseInt (a :: rest) 16 = NaN.
Proof.
  intros Hws Hp Hm Hd. unfold parseInt. cbn [trimStart]. rewrite Hws.
  assert ((a =? 43) = false) as -> by lia.
  assert ((a =? 45) = false) as -> by lia.
  assert (a <> 48) as H0 by (intros ->; done).
  assert ((a =? 48) = false) as E48 by lia.
  cbn [orb]. destruct rest as [|c1 t]; simpl.
  - by rewrite Hd.
  - rewrite E48. simpl. by rewrite Hd.
Qed.

(** A string of odd length without line terminators ends in a chunk of
    one code unit; the chunks before it are those of the rest. *)
Lemma regex_chunks_app_pair a b t :
  isLineTerminator a = false -> isLineTerminator b = false ->
  regex_chunks (a :: b :: t) = [a; b] :: regex_chunks t.
Proof. intros Ha Hb. cbn [regex_chunks]. by rewrite Ha, Hb. Qed.

Lemma regex_chunks_odd_aux n : forall s,
  length s = n ->
  Forall (fun c => isLineTerminator c = false) s ->
  Nat.odd (length s) = true ->
  exists init c,
    s = init ++ [c] /\ regex_chunks s = regex_chunks init ++ [[c]].
Proof.
  induction n as [n IH] using lt_wf_ind. intros s Hn Hs Hodd.
  destruct s as [|a [|b t]]; [done| |].
  - exists [], a. split; [done|]. inversion Hs; subst.
    simpl. by destruct (isLineTerminator a).
  - inversion Hs as [|? ? Ha Hs']; subst.
    inversion Hs' as [|? ? Hb Ht]; subst.
    destruct (IH (length t)) with (s := t) as (init & c & -> & Hc);
      [simpl; lia|done|done| |].
    { cbn [length] in Hodd. by rewrite Nat.odd_succ_succ in Hodd. }
    exists (a :: b :: init), c. split; [done|].
    change ((a :: b :: init) ++ [c]) with (a :: b :: (init ++ [c])).
    rewrite !regex_chunks_app_pair, Hc by done. done.
Qed.

Lemma regex_chunks_odd s :
  Forall (fun c => isLineTerminator c = false) s ->
  Nat.odd (length s) = true ->
  exists init c,
    s = init ++ [c] /\ regex_chunks s = regex_chunks init ++ [[c]].
Proof. by apply (regex_chunks_odd_aux (length s)). Qed.

Lemma Forall2_map_intro {A B} (f : A -> B) (P : A -> B -> Prop) l :
  (forall x, P x (f x)) -> Forall2 P l (map f l).
Proof. intros H. induction l; simpl; by constructor. Qed.

End HexLemmas.

(** ** The helpers, run *)

Section FunctionLemmas.
Context `{RT : Runtime}.

Lemma set_fresh h tr z src off n :
  (len src + off <= n)%nat ->
  TypedArray_set {| buf := length h; byteOffset := 0; len := n |} src off
    {| heap := h ++ [z]; trace := tr |}
  = (Ok tt, {| heap := h ++ [write_at off (read (h ++ [z]) src) z];
               trace := tr |}).
Proof.
  intros Hle. unfold TypedArray_set; simpl.
  rewrite decide_True by done. do 2 f_equal.
  rewrite buffer_bytes_fresh, insert_app_r_alt by lia.
  by rewrite Nat.sub_diag.
Qed.

Lemma write_at_zeros (r1 : list Z) n2 :
  write_at 0 r1 (replicate (length r1 + n2) 0) = r1 ++ replicate n2 0.
Proof.
  unfold write_at. rewrite take_0, drop_replicate; simpl.
  do 2 f_equal. lia.
Qed.

Lemma write_at_tail (r1 r2 : list Z) :
  write_at (length r1) r2 (r1 ++ replicate (length r2) 0) = r1 ++ r2.
Proof.
  unfold write_at. rewrite take_app_length.
  rewrite drop_ge by (rewrite length_app, length_replicate; lia).
  by rewrite app_nil_r.
Qed.

(** [concatUint8Arrays] allocates one buffer and answers the view on it;
    for views of the store the buffer holds the two inputs in order. *)
Lemma concat_run arr1 arr2 st :
  exists bs,
    concatUint8Arrays arr1 arr2 st
    = (Ok {| buf := length (heap st); byteOffset := 0;
             len := len arr1 + len arr2 |}, push st bs)
    /\ (wf_view (heap st) arr1 -> wf_view (heap st) arr2 ->
        bs = read (heap st) arr1 ++ read (heap st) arr2).
Proof.
  destruct st as [h tr]. unfold concatUint8Arrays.
  set (n := (len arr1 + len arr2)%nat).
  set (z0 := replicate n 0).
  rewrite bind_run. simpl new_Uint8Array. unfold alloc at 1. simpl heap.
  simpl trace. fold z0. replace (length z0) with n
    by (unfold z0; by rewrite length_replicate).
  rewrite bind_run, set_fresh by (unfold n; lia).
  rewrite bind_run, set_fresh by (unfold n; lia).
  eexists. split; [reflexivity|].
  intros Hw1 Hw2. simpl in Hw1, Hw2.
  rewrite !read_app by (by apply wf_view_lt).
  pose proof (read_length _ _ Hw1) as L1.
  pose proof (read_length _ _ Hw2) as L2.
  unfold z0, n. rewrite <- L1, <- L2.
  rewrite write_at_zeros. apply write_at_tail.
Qed.

Lemma frames_concat arr1 arr2 : frames (concatUint8Arrays arr1 arr2).
Proof.
  intros st. destruct (concat_run arr1 arr2 st) as (bs & -> & _).
  simpl. by exists [bs].
Qed.

(** [valueToUint8Array] either throws and leaves the state as it was,
    or allocates a buffer for its result, or answers a view of its input
    without touching the store. *)
Lemma vtu_run value format st :
  match value_bytes (heap st) value format with
  | Throw e => valueToUint8Array value format st = (Throw e, st)
  | Ok bs =>
      valueToUint8Array value format st
      = (Ok (fresh_view (heap st) bs), push st bs)
      \/ exists v a,
          value = Some v
          /\ bytes_of_value (heap st) v = Some bs
          /\ valueToUint8Array value format st = (Ok a, st)
          /\ read (heap st) a = bs
          /\ (wf_value (heap st) value -> wf_view (heap st) a)
          /\ (instanceof_ArrayBuffer v = Some (buf a)
              \/ instanceof_Uint8Array v = Some a)
  end.
Proof.
  destruct st as [h tr]. destruct value as [v|]; [|by left].
  destruct v as [s|b|l|a|n|b|c]; simpl heap.
  - (* string *)
    unfold value_bytes, valueToUint8Array, hex_bytes.
    destruct (decide (format = Some "hex"%string)); [|by left].
    destruct (String_match s) as [ms|]; [|done].
    left. simpl. unfold alloc, fresh_view, push; simpl.
    by rewrite List.map_map.
  - (* Buffer *)
    unfold value_bytes, valueToUint8Array, Buffer_isBuffer; simpl.
    destruct has_Buffer; [by left|].
    right. exists (VBuffer b), b. repeat split; auto.
  - (* ArrayBuffer *)
    right. eexists _, _. split; [done|]. split; [done|].
    split.
    + unfold valueToUint8Array, Buffer_isBuffer; simpl.
      destruct has_Buffer; reflexivity.
    + split; [|split; [|by left]].
      * unfold read; simpl. rewrite drop_0. apply firstn_all.
      * simpl. intros Hl. apply lookup_lt_is_Some in Hl as [bs Hbs].
        exists bs. split; [done|]. unfold buffer_bytes; simpl.
        rewrite Hbs; simpl. lia.
  - (* Uint8Array *)
    right. exists (VUint8Array a), a. split; [done|]. split; [done|].
    split; [|repeat split; auto].
    unfold valueToUint8Array, Buffer_isBuffer; simpl.
    destruct has_Buffer; reflexivity.
  - unfold value_bytes, valueToUint8Array, Buffer_isBuffer; simpl.
    destruct has_Buffer; reflexivity.
  - unfold value_bytes, valueToUint8Array, Buffer_isBuffer; simpl.
    destruct has_Buffer; reflexivity.
  - unfold value_bytes, valueToUint8Array, Buffer_isBuffer; simpl.
    destruct has_Buffer; reflexivity.
Qed.

Lemma vtu_throw value format st e :
  value_bytes (heap st) value format = Throw e ->
  valueToUint8Array value format st = (Throw e, st).
Proof. intros Hb. pose proof (vtu_run value format st) as H. by rewrite Hb in H. Qed.

(** The successful case, with what later steps need. *)
Lemma vtu_ok value format st bs :
  wf_value (heap st) value ->
  value_bytes (heap st) value format = Ok bs ->
  exists v st',
    valueToUint8Array value format st = (Ok v, st')
    /\ trace st' = trace st
    /\ heap st `prefix_of` heap st'
    /\ wf_view (heap st') v
    /\ read (heap st') v = bs.
Proof.
  intros Hwf Hb. pose proof (vtu_run value format st) as H.
  rewrite Hb in H. destruct H as [H|(v & a & _ & _ & H & Hr & Hw & _)].
  - eexists _, _. split; [exact H|]. simpl.
    split; [done|]. split; [by exists [bs]|].
    split; [apply wf_fresh_view|apply read_fresh].
  - exists a, st. repeat split; auto.
Qed.

Lemma frames_vtu value format : frames (valueToUint8Array value format).
Proof.
  intros st. pose proof (vtu_run value format st) as H.
  destruct (value_bytes (heap st) value format) as [bs|e].
  - destruct H as [->|(v & a & _ & _ & -> & _)]; simpl; [by exists [bs]|done].
  - by rewrite H.
Qed.

Lemma vtu_trace value format st :
  trace (snd (valueToUint8Array value format st)) = trace st.
Proof.
  pose proof (vtu_run value format st) as H.
  destruct (value_bytes (heap st) value format) as [bs|e].
  - by destruct H as [->|(v & a & _ & _ & -> & _)].
  - by rewrite H.
Qed.

End FunctionLemmas.

(** ** [verifyKey], run *)

Section VerifyLemmas.
Context `{RT : Runtime}.

Lemma value_bytes_hex h s :
  value_bytes h (Some (VString s)) (Some "hex"%string) = hex_bytes s.
Proof. unfold value_bytes. by rewrite decide_True. Qed.

Lemma value_bytes_utf8 h s :
  value_bytes h (Some (VString s)) None = Ok (utf8_encode s).
Proof. reflexivity. Qed.

Lemma verify_tail key signature (message : view) st :
  wf_view (heap st) message ->
  exists st',
    (sig ← valueToUint8Array (Some (VString signature)) (Some "hex"%string);
     isValid ← verify ed25519_verify key sig message;
     mret isValid) st
    = (fst (signature_outcome key signature (read (heap st) message)), st')
    /\ trace st'
       = trace st
         ++ snd (signature_outcome key signature (read (heap st) message))
    /\ heap st `prefix_of` heap st'.
Proof.
  intros Hwm. unfold signature_outcome.
  destruct (hex_bytes signature) as [sb|e] eqn:Hsig.
  - destruct (vtu_ok (Some (VString signature)) (Some "hex"%string) st sb)
      as (v & st1 & E & T & P & W & R); [done|by rewrite value_bytes_hex|].
    rewrite (bind_ok _ _ _ _ _ E), bind_run.
    unfold verify at 1. rewrite R, (read_prefix _ _ _ P Hwm), T.
    eexists. split; [by destruct (subtle_verify _ _ _ _)|].
    by split.
  - exists st. rewrite (bind_throw _ _ st e st).
    + simpl. by rewrite app_nil_r.
    + apply vtu_throw. by rewrite value_bytes_hex.
Qed.

(** Step 4: the key handle. *)
Lemma resolve_key_run (clientPublicKey : jsstring + CryptoKey) st :
  exists st',
    match clientPublicKey with
    | inl hex =>
        keyData ← valueToUint8Array (Some (VString hex)) (Some "hex"%string);
        importKey "raw" keyData ed25519_import false ["verify"%string]
    | inr key => mret key
    end st
    = (fst (resolve_key clientPublicKey), st')
    /\ trace st' = trace st ++ snd (resolve_key clientPublicKey)
    /\ heap st `prefix_of` heap st'.
Proof.
  destruct clientPublicKey as [hex|key]; unfold resolve_key.
  - destruct (hex_bytes hex) as [kb|e] eqn:Hhex.
    + destruct (vtu_ok (Some (VString hex)) (Some "hex"%string) st kb)
        as (v & st1 & E & T & P & W & R); [done|by rewrite value_bytes_hex|].
      rewrite (bind_ok _ _ _ _ _ E). unfold importKey. rewrite R, T.
      eexists. split; [reflexivity|]. by split.
    + exists st. rewrite (bind_throw _ _ st e st).
      * simpl. by rewrite app_nil_r.
      * apply vtu_throw. by rewrite value_bytes_hex.
  - exists st. split; [reflexivity|]. simpl. by rewrite app_nil_r.
Qed.

(** The [try] block computes [verify_outcome]: its result, and the calls
    made to the provider; no existing buffer is written. *)
Lemma verifyKey_body_run rawBody signature timestamp clientPublicKey st :
  wf_value (heap st) rawBody ->
  exists st',
    verifyKey_body rawBody signature timestamp clientPublicKey st
    = (fst (verify_outcome (heap st) rawBody signature timestamp
              clientPublicKey), st')
    /\ trace st'
       = trace st
         ++ snd (verify_outcome (heap st) rawBody signature timestamp
                   clientPublicKey)
    /\ heap st `prefix_of` heap st'.
Proof.
  intros Hwf. unfold verifyKey_body, verify_outcome.
  destruct (vtu_ok (Some (VString timestamp)) None st (utf8_encode timestamp))
    as (v1 & st1 & E1 & T1 & P1 & W1 & R1); [done|done|].
  rewrite (bind_ok _ _ _ _ _ E1).
  pose proof (value_bytes_prefix _ _ rawBody None P1 Hwf) as Hvb.
  destruct (value_bytes (heap st) rawBody None) as [body|e].
  2:{ exists st1. rewrite (bind_throw _ _ st1 e st1) by (by apply vtu_throw).
      simpl. rewrite app_nil_r. by split. }
  destruct (vtu_ok rawBody None st1 body)
    as (v2 & st2 & E2 & T2 & P2 & W2 & R2);
    [by eapply wf_value_prefix|done|].
  rewrite (bind_ok _ _ _ _ _ E2).
  pose proof (wf_view_prefix _ _ _ P2 W1) as W1'.
  destruct (concat_run v1 v2 st2) as (bs & E3 & Hbs).
  specialize (Hbs W1' W2).
  rewrite (read_prefix _ _ _ P2 W1), R1, R2 in Hbs. subst bs.
  rewrite (bind_ok _ _ _ _ _ E3).
  set (msg := utf8_encode timestamp ++ body) in *.
  set (m := {| buf := length (heap st2) |}) in *.
  assert (Hm : m = fresh_view (heap st2) msg).
  { unfold m, fresh_view. f_equal. unfold msg. rewrite length_app.
    rewrite <- R1, <- R2, (read_length _ _ W2).
    rewrite <- (read_prefix _ _ _ P2 W1), (read_length _ _ W1'). done. }
  assert (Wm : wf_view (heap (push st2 msg)) m)
    by (rewrite Hm; apply wf_fresh_view).
  assert (Rm : read (heap (push st2 msg)) m = msg)
    by (rewrite Hm; apply read_fresh).
  assert (P3 : heap st `prefix_of` heap (push st2 msg)).
  { etrans; [exact P1|]. etrans; [exact P2|]. by exists [msg]. }
  assert (T3 : trace (push st2 msg) = trace st) by (simpl; congruence).
  generalize dependent (push st2 msg). intros st3 _ Wm Rm P3 T3.
  rewrite bind_run.
  destruct (resolve_key_run clientPublicKey st3) as (st4 & E4 & T4 & P4).
  rewrite E4.
  destruct (resolve_key clientPublicKey) as [[key|e] evs]; cbn [fst snd] in *.
  2:{ exists st4. split; [done|]. split; [congruence|by etrans]. }
  destruct (verify_tail key signature m st4) as (st5 & E5 & T5 & P5);
    [by eapply wf_view_prefix|].
  rewrite (read_prefix _ _ _ P4 Wm), Rm in E5, T5.
  exists st5. rewrite E5.
  destruct (signature_outcome key signature msg) as [r evs'];
    cbn [fst snd] in *.
  split; [done|]. split.
  - rewrite T5, T4, T3. by rewrite app_assoc.
  - etrans; [exact P3|]. by etrans.
Qed.

(** [verifyKey] answers the outcome collapsed to a boolean. *)
Lemma verifyKey_run rawBody signature timestamp clientPublicKey st :
  wf_value (heap st) rawBody ->
  exists st',
    verifyKey rawBody signature timestamp clientPublicKey st
    = (Ok (collapse (fst (verify_outcome (heap st) rawBody signature
                            timestamp clientPublicKey))), st')
    /\ trace st'
       = trace st
         ++ snd (verify_outcome (heap st) rawBody signature timestamp
                   clientPublicKey)
    /\ heap st `prefix_of` heap st'.
Proof.
  intros Hwf.
  destruct (verifyKey_body_run rawBody signature timestamp clientPublicKey
              st Hwf) as (st' & E & T & P).
  exists st'. unfold verifyKey, try_catch. rewrite E.
  by destruct (fst (verify_outcome _ _ _ _ _)).
Qed.

Lemma frames_verifyKey rawBody signature timestamp clientPublicKey :
  frames (verifyKey rawBody signature timestamp clientPublicKey).
Proof.
  unfold verifyKey, verifyKey_body.
  apply frames_try_catch; [|intros; apply frames_ret].
  apply frames_bind; [apply frames_vtu|intros v1].
  apply frames_bind; [apply frames_vtu|intros v2].
  apply frames_bind; [apply frames_concat|intros m].
  apply frames_bind.
  - destruct clientPublicKey; [|apply frames_ret].
    apply frames_bind; [apply frames_vtu|intros; apply frames_importKey].
  - intros key. apply frames_bind; [apply frames_vtu|intros sg].
    apply frames_bind; [apply frames_verify|intros; apply frames_ret].
Qed.

End VerifyLemmas.

(** ** Reading an outcome *)

Section OutcomeLemmas.
Context `{RT : Runtime}.

Lemma resolve_key_events clientPublicKey alg k sg data :
  EvVerify alg k sg data ∉ snd (resolve_key clientPublicKey).
Proof.
  destruct clientPublicKey as [hex|key]; simpl; [|by apply not_elem_of_nil].
  destruct (hex_bytes hex); simpl; [|by apply not_elem_of_nil].
  intros H. apply list_elem_of_singleton in H. discriminate.
Qed.

(** [verifyKey] answers [true] exactly when every step succeeds and the
    provider accepts the decoded signature over timestamp then body. *)
Lemma outcome_true h rawBody signature timestamp clientPublicKey :
  collapse (fst (verify_outcome h rawBody signature timestamp
                   clientPublicKey)) = true
  <-> exists body key sig,
        value_bytes h rawBody None = Ok body
        /\ fst (resolve_key clientPublicKey) = Ok key
        /\ hex_bytes signature = Ok sig
        /\ subtle_verify ed25519_verify key sig
             (utf8_encode timestamp ++ body) = Ok true.
Proof.
  unfold verify_outcome, signature_outcome.
  destruct (value_bytes h rawBody None) as [body|e]; simpl.
  2:{ split; [done|]. by intros (? & ? & ? & ? & _). }
  destruct (resolve_key clientPublicKey) as [[key|e] evs]; simpl.
  2:{ split; [done|]. by intros (? & ? & ? & _ & ? & _). }
  destruct (hex_bytes signature) as [sig|e]; simpl.
  2:{ split; [done|]. by intros (? & ? & ? & _ & _ & ? & _). }
  split.
  - intros H. exists body, key, sig. repeat split; try done.
    destruct (subtle_verify _ _ _ _) as [[]|]; simpl in H; congruence.
  - intros (b' & k' & s' & [= <-] & [= <-] & [= <-] & ->). done.
Qed.

(** Every verification the provider is asked for is over timestamp then
    body, with the resolved key and the decoded signature. *)
Lemma outcome_events h rawBody signature timestamp clientPublicKey
    alg k sg data :
  EvVerify alg k sg data
    ∈ snd (verify_outcome h rawBody signature timestamp clientPublicKey) ->
  exists body,
    value_bytes h rawBody None = Ok body
    /\ alg = ed25519_verify
    /\ fst (resolve_key clientPublicKey) = Ok k
    /\ hex_bytes signature = Ok sg
    /\ data = utf8_encode timestamp ++ body.
Proof.
  unfold verify_outcome, signature_outcome.
  destruct (value_bytes h rawBody None) as [body|e]; simpl.
  2:{ intros H. by apply elem_of_nil in H. }
  pose proof (resolve_key_events clientPublicKey alg k sg data) as Hn.
  destruct (resolve_key clientPublicKey) as [[key|e] evs]; simpl in *;
    [|done].
  destruct (hex_bytes signature) as [sig|e]; simpl.
  - intros H. apply elem_of_app in H as [H|H]; [done|].
    apply list_elem_of_singleton in H. injection H as -> -> -> ->.
    by exists body.
  - rewrite app_nil_r. done.
Qed.

Lemma outcome_verified h rawBody signature timestamp clientPublicKey
    body key sig :
  value_bytes h rawBody None = Ok body ->
  fst (resolve_key clientPublicKey) = Ok key ->
  hex_bytes signature = Ok sig ->
  verify_outcome h rawBody signature timestamp clientPublicKey
  = (subtle_verify ed25519_verify key sig (utf8_encode timestamp ++ body),
     snd (resolve_key clientPublicKey)
     ++ [EvVerify ed25519_verify key sig (utf8_encode timestamp ++ body)]).
Proof.
  intros Hb Hk Hs. unfold verify_outcome, signature_outcome.
  rewrite Hb, Hs. destruct (resolve_key clientPublicKey) as [[k|e] evs];
    simpl in *; congruence.
Qed.

End OutcomeLemmas.

(** ** The properties of [verifyKey] and its helpers *)

Section Claims.
Context `{RT : Runtime}.

(** C1 (amended). [verifyKey] never raises: whatever [rawBody] (of an
    accepted type or not), signature, timestamp and key (string or handle)
    it is given, it answers a boolean, and that boolean is [false] whenever
    a step of its [try] block throws.  For an input of the store, each
    step that throws gives [false]: a body of an unsupported type, a
    signature or key string the hex decoding throws on (one with nothing to
    decode), a key the provider refuses to import, a verification the
    provider throws on. *)
Theorem verifyKey_never_raises rawBody signature timestamp clientPublicKey st :
  (exists b st',
      verifyKey rawBody signature timestamp clientPublicKey st = (Ok b, st')
      /\ (forall e,
            fst (verifyKey_body rawBody signature timestamp clientPublicKey st)
            = Throw e -> b = false))
  /\ (wf_value (heap st) rawBody ->
      let answer :=
        fst (verifyKey rawBody signature timestamp clientPublicKey st) in
      (forall e, value_bytes (heap st) rawBody None = Throw e ->
                 answer = Ok false)
      /\ (forall e, hex_bytes signature = Throw e -> answer = Ok false)
      /\ (forall hex e, clientPublicKey = inl hex ->
                        hex_bytes hex = Throw e -> answer = Ok false)
      /\ (forall hex kb e,
            clientPublicKey = inl hex -> hex_bytes hex = Ok kb ->
            subtle_importKey "raw" kb ed25519_import false ["verify"%string]
            = Throw e ->
            answer = Ok false)
      /\ (forall body key sig e,
            value_bytes (heap st) rawBody None = Ok body ->
            fst (resolve_key clientPublicKey) = Ok key ->
            hex_bytes signature = Ok sig ->
            subtle_verify ed25519_verify key sig
              (utf8_encode timestamp ++ body) = Throw e ->
            answer = Ok false)).
Proof.
  split.
  - unfold verifyKey, try_catch.
    destruct (verifyKey_body rawBody signature timestamp clientPublicKey st)
      as [[b|e] st1]; simpl.
    + exists b, st1. by split.
    + exists false, st1. by split.
  - intros Hwf answer.
    destruct (verifyKey_run rawBody signature timestamp clientPublicKey st
                Hwf) as (st' & E & _ & _).
    subst answer. rewrite E. cbn [fst].
    unfold verify_outcome, signature_outcome.
    split; [by intros e ->|].
    split.
    { intros e He. destruct (value_bytes _ _ _); [|done].
      destruct (resolve_key _) as [[]]; [|done]. by rewrite He. }
    split.
    { intros hex e -> He. destruct (value_bytes _ _ _); [|done].
      unfold resolve_key. by rewrite He. }
    split.
    { intros hex kb e -> Hk Hi. destruct (value_bytes _ _ _); [|done].
      unfold resolve_key. by rewrite Hk, Hi. }
    intros body key sig e -> Hk -> Hv.
    destruct (resolve_key _) as [[k|] evs]; simpl in *; [|done].
    injection Hk as ->. by rewrite Hv.
Qed.

(** C2. [concatUint8Arrays] answers, for two arrays of the store holding A
    and B, an array in a buffer of its own, of length len(A)+len(B),
    holding A immediately followed by B; and the message [verifyKey] has
    verified is the timestamp's bytes followed by the body's: every
    verification asked of the provider is over that message, and one is
    asked as soon as the key resolves and the signature decodes. *)
Theorem concat_is_append_timestamp_first :
  (forall arr1 arr2 st,
      wf_view (heap st) arr1 -> wf_view (heap st) arr2 ->
      exists merged st',
        concatUint8Arrays arr1 arr2 st = (Ok merged, st')
        /\ heap st !! buf merged = None
        /\ wf_view (heap st') merged
        /\ len merged = (len arr1 + len arr2)%nat
        /\ length (read (heap st') merged)
           = (length (read (heap st) arr1)
              + length (read (heap st) arr2))%nat
        /\ read (heap st') merged
           = read (heap st) arr1 ++ read (heap st) arr2)
  /\ (forall rawBody signature timestamp clientPublicKey st body,
        wf_value (heap st) rawBody ->
        value_bytes (heap st) rawBody None = Ok body ->
        exists b st' evs,
          verifyKey rawBody signature timestamp clientPublicKey st
          = (Ok b, st')
          /\ trace st' = trace st ++ evs
          /\ (forall alg key sig data,
                EvVerify alg key sig data ∈ evs ->
                data = utf8_encode timestamp ++ body)
          /\ (forall key sig,
                fst (resolve_key clientPublicKey) = Ok key ->
                hex_bytes signature = Ok sig ->
                EvVerify ed25519_verify key sig
                  (utf8_encode timestamp ++ body) ∈ evs
                /\ b = collapse
                         (subtle_verify ed25519_verify key sig
                            (utf8_encode timestamp ++ body)))).
Proof.
  split.
  - intros arr1 arr2 st W1 W2.
    destruct (concat_run arr1 arr2 st) as (bs & E & Hbs).
    specialize (Hbs W1 W2). subst bs.
    set (bs := read (heap st) arr1 ++ read (heap st) arr2) in *.
    assert (Hm : {| buf := length (heap st); byteOffset := 0;
                    len := len arr1 + len arr2 |}
                 = fresh_view (heap st) bs).
    { unfold fresh_view, bs. f_equal.
      by rewrite length_app, !read_length. }
    rewrite Hm in E. eexists _, _. split; [exact E|].
    split; [by apply lookup_ge_None_2|].
    split; [apply wf_fresh_view|].
    split; [by rewrite <- Hm|].
    simpl. rewrite read_fresh. split; [|done].
    unfold bs. by rewrite length_app.
  - intros rawBody signature timestamp clientPublicKey st body Hwf Hb.
    destruct (verifyKey_run rawBody signature timestamp clientPublicKey st
                Hwf) as (st' & E & T & _).
    eexists _, st', _. split; [exact E|]. split; [exact T|].
    split.
    + intros alg key sig data Hin.
      apply outcome_events in Hin as (body' & Hb' & _ & _ & _ & ->).
      congruence.
    + intros key sig Hk Hs.
      rewrite (outcome_verified _ _ _ _ _ body key sig) by done.
      split; [|done]. apply elem_of_app. right. by apply list_elem_of_singleton.
Qed.

(** C5. For an absent ([null] or [undefined]) value the normalizer
    answers an empty byte sequence, whatever the format tag, and does not
    throw; [verifyKey] with an absent body therefore has the signature
    verified against the timestamp's bytes alone, and answers as it does
    for the empty string body. *)
Theorem absent_body_is_empty signature timestamp clientPublicKey st :
  (forall format,
      exists v st',
        valueToUint8Array None format st = (Ok v, st')
        /\ len v = 0%nat
        /\ read (heap st') v = [])
  /\ (exists b st' evs,
        verifyKey None signature timestamp clientPublicKey st = (Ok b, st')
        /\ trace st' = trace st ++ evs
        /\ (forall alg key sig data,
              EvVerify alg key sig data ∈ evs ->
              data = utf8_encode timestamp)
        /\ (b = true
            <-> exists key sig,
                  fst (resolve_key clientPublicKey) = Ok key
                  /\ hex_bytes signature = Ok sig
                  /\ subtle_verify ed25519_verify key sig
                       (utf8_encode timestamp) = Ok true)
        /\ fst (verifyKey (Some (VString [])) signature timestamp
                  clientPublicKey st) = Ok b).
Proof.
  split.
  - intros format. eexists _, _. split; [reflexivity|]. split; [done|].
    apply (read_fresh (heap st) []).
  - destruct (verifyKey_run None signature timestamp clientPublicKey st I)
      as (st' & E & T & _).
    destruct (verifyKey_run (Some (VString [])) signature timestamp
                clientPublicKey st I) as (st2 & E2 & _ & _).
    eexists _, st', _. split; [exact E|]. split; [exact T|].
    split; [|split].
    + intros alg key sig data Hin.
      apply outcome_events in Hin as (body & [= <-] & _ & _ & _ & ->).
      apply app_nil_r.
    + rewrite outcome_true. split.
      * intros (body & key & sig & [= <-] & Hk & Hs & Hv).
        rewrite app_nil_r in Hv. by exists key, sig.
      * intros (key & sig & Hk & Hs & Hv). exists [], key, sig.
        rewrite app_nil_r. by repeat split.
    + rewrite E2. reflexivity.
Qed.

(** C6. A string body and a byte-sequence body (a [Uint8Array], a [Buffer]
    or an [ArrayBuffer] of the store) holding the UTF-8 encoding of that
    string make [verifyKey] answer the same boolean, for the same
    signature, timestamp and key. *)
Theorem string_and_bytes_agree s v signature timestamp clientPublicKey st :
  wf_value (heap st) (Some v) ->
  bytes_of_value (heap st) v = Some (utf8_encode s) ->
  fst (verifyKey (Some (VString s)) signature timestamp clientPublicKey st)
  = fst (verifyKey (Some v) signature timestamp clientPublicKey st).
Proof.
  intros Hwf Hb.
  destruct (verifyKey_run (Some (VString s)) signature timestamp
              clientPublicKey st I) as (st1 & -> & _ & _).
  destruct (verifyKey_run (Some v) signature timestamp clientPublicKey st
              Hwf) as (st2 & -> & _ & _).
  cbn [fst]. unfold verify_outcome.
  replace (value_bytes (heap st) (Some v) None) with
    (@Ok (list Z) (utf8_encode s)); [done|].
  unfold value_bytes. rewrite Hb. by destruct v.
Qed.

(** C7. For a value that is neither a string nor a [Buffer], an
    [ArrayBuffer] or a [Uint8Array], the normalizer throws, leaving the
    state as it was, an error whose message names the accepted types. *)
Theorem unsupported_type_error v format st :
  (forall s, v <> VString s) ->
  instanceof_ArrayBuffer v = None ->
  instanceof_Uint8Array v = None ->
  exists message,
    valueToUint8Array (Some v) format st = (Throw (Error message), st)
    /\ message = "Unrecognized value type, must be one of: string, Buffer, ArrayBuffer, Uint8Array"%string
    /\ mentions "string" message = true
    /\ mentions "Buffer" message = true
    /\ mentions "ArrayBuffer" message = true
    /\ mentions "Uint8Array" message = true.
Proof.
  intros Hs Hab Hu. eexists. split; [|by repeat split].
  apply vtu_throw.
  destruct v; simpl in *; try done. by destruct (Hs s).
Qed.

(** C9. No invocation writes to its inputs: after [verifyKey], and after
    each helper, every buffer of the store holds what it held before, so
    the bytes of a [rawBody] given as a byte sequence are unchanged.
    [concatUint8Arrays] answers an array in a buffer that did not exist
    before; [valueToUint8Array] answers either an array in such a new
    buffer or, for an [ArrayBuffer] or a [Uint8Array], a view of the input
    itself, the store being left as it was. *)
Theorem inputs_not_mutated rawBody signature timestamp clientPublicKey st :
  let st' := snd (verifyKey rawBody signature timestamp clientPublicKey st) in
  (forall l bs, heap st !! l = Some bs -> heap st' !! l = Some bs)
  /\ (forall v, rawBody = Some v -> wf_value (heap st) rawBody ->
                bytes_of_value (heap st') v = bytes_of_value (heap st) v)
  /\ (forall value format l bs,
        heap st !! l = Some bs ->
        heap (snd (valueToUint8Array value format st)) !! l = Some bs)
  /\ (forall arr1 arr2 l bs,
        heap st !! l = Some bs ->
        heap (snd (concatUint8Arrays arr1 arr2 st)) !! l = Some bs)
  /\ (forall arr1 arr2,
        exists merged st1,
          concatUint8Arrays arr1 arr2 st = (Ok merged, st1)
          /\ heap st !! buf merged = None)
  /\ (forall value format a st1,
        valueToUint8Array value format st = (Ok a, st1) ->
        heap st !! buf a = None
        \/ (st1 = st
            /\ exists v, value = Some v
                         /\ (instanceof_ArrayBuffer v = Some (buf a)
                             \/ instanceof_Uint8Array v = Some a))).
Proof.
  assert (Hlk : forall (h h' : list (list Z)) l bs,
             h `prefix_of` h' -> h !! l = Some bs -> h' !! l = Some bs).
  { intros h h' l bs [k ->] H. by apply lookup_app_l_Some. }
  intros st'. split; [|split; [|split; [|split; [|split]]]].
  - intros l bs. apply Hlk. apply frames_verifyKey.
  - intros v -> Hwf. apply bytes_of_value_prefix; [|done].
    apply frames_verifyKey.
  - intros value format l bs. apply Hlk. apply frames_vtu.
  - intros arr1 arr2 l bs. apply Hlk. apply frames_concat.
  - intros arr1 arr2. destruct (concat_run arr1 arr2 st) as (bs & E & _).
    eexists _, _. split; [exact E|]. by apply lookup_ge_None_2.
  - intros value format a st1 E.
    pose proof (vtu_run value format st) as H.
    destruct (value_bytes (heap st) value format) as [bs|e];
      [|congruence].
    destruct H as [H|(v & a' & -> & _ & H & _ & _ & Hi)].
    + left. rewrite H in E. injection E as <- <-.
      by apply lookup_ge_None_2.
    + right. rewrite H in E. injection E as -> ->. split; [done|].
      by exists v.
Qed.

(** C3 (amended). With the format tag ["hex"], the normalizer throws,
    with the message "Value is not a valid hex string", exactly for the
    strings without any code unit other than a line terminator, the empty
    string among them.  Every other string, of odd length or with
    characters that are not hex digits, is decoded: one byte per chunk of
    at most two code units. *)
Theorem hex_raises_only_without_chunk s st :
  let run := valueToUint8Array (Some (VString s)) (Some "hex"%string) st in
  (forall e,
      fst run = Throw e
      <-> e = Error "Value is not a valid hex string"
          /\ Forall (fun c => isLineTerminator c = true) s)
  /\ (Exists (fun c => isLineTerminator c = false) s ->
      exists v st',
        run = (Ok v, st')
        /\ read (heap st') v
           = map (fun byte => ToUint8 (parseInt byte 16)) (regex_chunks s)).
Proof.
  intros run. subst run.
  pose proof (vtu_run (Some (VString s)) (Some "hex"%string) st) as H.
  rewrite value_bytes_hex in H. split.
  - intros e. rewrite <- (hex_bytes_Throw s e).
    destruct (hex_bytes s) as [bs|e'].
    + destruct H as [->|(v & a & _ & _ & -> & _)]; by split.
    + rewrite H. split; [by intros [= ->]|by intros [= ->]].
  - intros Hex.
    assert (hex_bytes s
            = Ok (map (fun byte => ToUint8 (parseInt byte 16))
                    (regex_chunks s))) as Hb by (by apply hex_bytes_Ok).
    rewrite Hb in H. destruct H as [->|(v & a & [= <-] & Hn & _)]; [|done].
    eexists _, _. split; [done|]. apply read_fresh.
Qed.

(** C4. Once the body is normalized, a key given as a string is decoded
    as hex and handed to the provider's [importKey] as raw Ed25519 key
    material, not extractable, for the single usage "verify"; this happens
    in every call, whatever happened before, and the call then proceeds as
    it does for the handle the provider answered (a refusal gives
    [false]).  A key given as a handle is used as it is: nothing is
    imported and it is the key every verification is asked with. *)
Theorem key_resolution rawBody signature timestamp st body :
  wf_value (heap st) rawBody ->
  value_bytes (heap st) rawBody None = Ok body ->
  (forall hex kb,
      hex_bytes hex = Ok kb ->
      exists b st' evs,
        verifyKey rawBody signature timestamp (inl hex) st = (Ok b, st')
        /\ trace st'
           = trace st
             ++ EvImportKey "raw" kb
                  {| name := "ed25519"; namedCurve := Some "ed25519"%string |}
                  false ["verify"%string] :: evs
        /\ (forall f d a x u, EvImportKey f d a x u ∉ evs)
        /\ match subtle_importKey "raw" kb ed25519_import false
                   ["verify"%string] with
           | Ok key =>
               exists st'',
                 verifyKey rawBody signature timestamp (inr key) st
                 = (Ok b, st'')
                 /\ trace st'' = trace st ++ evs
           | Throw _ => b = false /\ evs = []
           end)
  /\ (forall key,
        exists b st' evs,
          verifyKey rawBody signature timestamp (inr key) st = (Ok b, st')
          /\ trace st' = trace st ++ evs
          /\ (forall f d a x u, EvImportKey f d a x u ∉ evs)
          /\ (forall alg key' sig data,
                EvVerify alg key' sig data ∈ evs -> key' = key)
          /\ b = collapse (fst (signature_outcome key signature
                                  (utf8_encode timestamp ++ body)))).
Proof.
  intros Hwf Hb.
  assert (Hsig : forall key f d a x u,
             EvImportKey f d a x u
               ∉ snd (signature_outcome key signature
                        (utf8_encode timestamp ++ body))).
  { intros key f d a x u. unfold signature_outcome.
    destruct (hex_bytes signature); simpl; [|apply not_elem_of_nil].
    intros H. apply list_elem_of_singleton in H. discriminate. }
  assert (Hhandle : forall key,
             verify_outcome (heap st) rawBody signature timestamp (inr key)
             = signature_outcome key signature
                 (utf8_encode timestamp ++ body)).
  { intros key. unfold verify_outcome. rewrite Hb. simpl.
    by destruct (signature_outcome _ _ _). }
  split.
  - intros hex kb Hk.
    destruct (verifyKey_run rawBody signature timestamp (inl hex) st Hwf)
      as (st' & E & T & _).
    revert E T. unfold verify_outcome at 1 2. rewrite Hb.
    unfold resolve_key. rewrite Hk. fold ed25519_import.
    destruct (subtle_importKey "raw" kb ed25519_import false
                ["verify"%string]) as [key|e] eqn:Hi.
    + destruct (verifyKey_run rawBody signature timestamp (inr key) st Hwf)
        as (st2 & E2 & T2 & _).
      rewrite Hhandle in E2, T2.
      destruct (signature_outcome key signature _) as [r evs'] eqn:Ho.
      cbn [fst snd]. intros E T.
      exists (collapse r), st', evs'. split; [exact E|].
      split; [exact T|]. split.
      * intros f d a x u. specialize (Hsig key f d a x u).
        by rewrite Ho in Hsig.
      * by exists st2.
    + cbn [fst snd]. intros E T. exists false, st', [].
      split; [exact E|]. split; [exact T|].
      split; [intros; apply not_elem_of_nil|done].
  - intros key.
    destruct (verifyKey_run rawBody signature timestamp (inr key) st Hwf)
      as (st' & E & T & _).
    pose proof (fun alg k' sg data =>
                  outcome_events (heap st) rawBody signature timestamp
                    (inr key) alg k' sg data) as Hev.
    rewrite Hhandle in E, T, Hev.
    eexists _, st', _. split; [exact E|]. split; [exact T|].
    split; [apply Hsig|]. split; [|done].
    intros alg key' sig data Hin.
    apply Hev in Hin as (_ & _ & _ & Hk & _). simpl in Hk. congruence.
Qed.

(** C8 (amended). [verifyKey] given a signature string of odd length
    does not raise, and answers [true] exactly when the provider accepts
    the bytes the string decodes to; where the string has no line
    terminator its last character is decoded as a byte of its own, after
    the bytes of the pairs before it.  It answers [false] in every other
    case. *)
Theorem odd_signature_is_decoded rawBody signature timestamp clientPublicKey
    st :
  wf_value (heap st) rawBody ->
  Nat.odd (length signature) = true ->
  exists b st',
    verifyKey rawBody signature timestamp clientPublicKey st = (Ok b, st')
    /\ (b = true
        <-> exists body key sig,
              value_bytes (heap st) rawBody None = Ok body
              /\ fst (resolve_key clientPublicKey) = Ok key
              /\ hex_bytes signature = Ok sig
              /\ subtle_verify ed25519_verify key sig
                   (utf8_encode timestamp ++ body) = Ok true)
    /\ (Forall (fun c => isLineTerminator c = false) signature ->
        exists init c,
          signature = init ++ [c]
          /\ hex_bytes signature
             = Ok (map (fun byte => ToUint8 (parseInt byte 16))
                     (regex_chunks init)
                   ++ [ToUint8 (parseInt [c] 16)])).
Proof.
  intros Hwf Hodd.
  destruct (verifyKey_run rawBody signature timestamp clientPublicKey st
              Hwf) as (st' & E & _ & _).
  eexists _, st'. split; [exact E|]. split; [apply outcome_true|].
  intros Hnl.
  destruct (regex_chunks_odd signature Hnl Hodd) as (init & c & Hs & Hc).
  exists init, c. split; [done|].
  apply hex_bytes_Ok. split.
  - by rewrite Hc, map_app.
  - rewrite Hs. apply Exists_app. right. constructor.
    rewrite Hs in Hnl. apply Forall_app in Hnl as [_ Hl].
    by inversion Hl.
Qed.

(** C10 (amended). With the format tag ["hex"], a string with at least
    one code unit that is not a line terminator is decoded without
    throwing: one byte per chunk, which is [parseInt(chunk, 16)] modulo
    256 and 0 where that is [NaN], as it is for a chunk that starts with
    anything but white space, a sign or a hex digit; the bytes number
    ceil(len(s)/2) when the string has no line terminator.  The strings
    that throw are those without a code unit other than line terminators,
    the empty string among them. *)
Theorem hex_decoding_is_lenient s st :
  let run := valueToUint8Array (Some (VString s)) (Some "hex"%string) st in
  ((exists e, fst run = Throw e)
   <-> Forall (fun c => isLineTerminator c = true) s)
  /\ (Exists (fun c => isLineTerminator c = false) s ->
      exists v st',
        run = (Ok v, st')
        /\ Forall2
             (fun chunk b =>
                b = ToUint8 (parseInt chunk 16)
                /\ (parseInt chunk 16 = NaN -> b = 0)
                /\ (forall a rest,
                      chunk = a :: rest ->
                      isStrWhiteSpaceChar a = false ->
                      a <> 43 -> a <> 45 -> radixDigit 16 a = None ->
                      b = 0))
             (regex_chunks s) (read (heap st') v)
        /\ (Forall (fun c => isLineTerminator c = false) s ->
            length (read (heap st') v) = ((length s + 1) / 2)%nat)).
Proof.
  intros run. subst run.
  pose proof (vtu_run (Some (VString s)) (Some "hex"%string) st) as H.
  rewrite value_bytes_hex in H. split.
  - destruct (hex_bytes s) as [bs|e'] eqn:Hb.
    + split.
      * intros [e He].
        destruct H as [H|(v & a & _ & _ & H & _)]; by rewrite H in He.
      * intros Hall. assert (hex_bytes s = Throw not_hex_error)
          by (by apply hex_bytes_Throw). congruence.
    + apply hex_bytes_Throw in Hb as [-> Hall].
      split; [done|]. intros _. exists not_hex_error. by rewrite H.
  - intros Hex.
    assert (hex_bytes s
            = Ok (map (fun byte => ToUint8 (parseInt byte 16))
                    (regex_chunks s))) as Hb by (by apply hex_bytes_Ok).
    rewrite Hb in H. destruct H as [->|(v & a & [= <-] & Hn & _)]; [|done].
    eexists _, _. split; [done|]. simpl. rewrite read_fresh. split.
    + apply Forall2_map_intro. intros chunk. split; [done|].
      split; [by intros ->|].
      intros a rest -> Hw Hp Hm Hd. by rewrite parseInt_NaN.
    + intros Hnl. by rewrite length_map, regex_chunks_length.
Qed.

End Claims.

(** ** More on chunks and hex digits *)

Section HexMore.
Context `{RT : Runtime}.

Lemma radixDigit_16_inv c d :
  radixDigit 16 c = Some d ->
  (48 <= c <= 57 /\ d = c - 48)
  \/ (97 <= c <= 102 /\ d = c - 87)
  \/ (65 <= c <= 70 /\ d = c - 55).
Proof.
  unfold radixDigit, digitValue.
  destruct (Z.leb_spec 48 c), (Z.leb_spec c 57); simpl.
  all: try (destruct (Z.ltb_spec (c - 48) 16); intros [= <-]; lia).
  all: destruct (Z.leb_spec 97 c), (Z.leb_spec c 122); simpl.
  all: try (destruct (Z.ltb_spec (c - 87) 16); intros [= <-]; lia).
  all: destruct (Z.leb_spec 65 c), (Z.leb_spec c 90); simpl.
  all: try (destruct (Z.ltb_spec (c - 55) 16); intros [= <-]; lia).
  all: done.
Qed.

Lemma radixDigit_16_range c d : radixDigit 16 c = Some d -> 0 <= d < 16.
Proof. intros H. apply radixDigit_16_inv in H. lia. Qed.

Lemma hex_digit_not_terminator c d :
  radixDigit 16 c = Some d -> isLineTerminator c = false.
Proof.
  intros H. apply radixDigit_16_inv in H. unfold isLineTerminator. lia.
Qed.

Lemma hex_digit_not_space c d :
  radixDigit 16 c = Some d -> isStrWhiteSpaceChar c = false.
Proof.
  intros H. apply radixDigit_16_inv in H.
  unfold isStrWhiteSpaceChar, isWhiteSpace, isLineTerminator. lia.
Qed.

(** The sign [parseInt] reads is positive unless the first code unit is
    the minus sign. *)
Lemma sign_plus c :
  c <> 45 -> match c with 45 => -1 | _ => 1 end = 1.
Proof.
  intros Hc. destruct c as [|p|p]; [done| |done].
  do 6 (try (destruct p as [p|p|]; try done)).
Qed.

(** One hex digit reads as its value. *)
Lemma parseInt_digit c d :
  radixDigit 16 c = Some d -> ToUint8 (parseInt [c] 16) = d.
Proof.
  intros H. pose proof (radixDigit_16_range _ _ H) as Hr.
  pose proof (hex_digit_not_space _ _ H) as Hs.
  pose proof (radixDigit_16_inv _ _ H) as Hc.
  unfold parseInt. cbn [trimStart]. rewrite Hs.
  assert ((c =? 43) = false) as -> by lia.
  assert ((c =? 45) = false) as -> by lia.
  simpl. rewrite H, sign_plus by lia. unfold mathInt. cbn [fold_left].
  destruct (Z.eqb_spec (0 * 16 + d) 0) as [E|Hd];
    [replace d with 0 by lia; reflexivity|].
  unfold ToUint8. rewrite Z.mod_small; lia.
Qed.

(** Two hex digits read as sixteen times the first plus the second. *)
Lemma parseInt_pair h l dh dl :
  radixDigit 16 h = Some dh -> radixDigit 16 l = Some dl ->
  ToUint8 (parseInt [h; l] 16) = 16 * dh + dl.
Proof.
  intros Hh Hl.
  pose proof (radixDigit_16_range _ _ Hh) as Rh.
  pose proof (radixDigit_16_range _ _ Hl) as Rl.
  pose proof (hex_digit_not_space _ _ Hh) as Hs.
  pose proof (radixDigit_16_inv _ _ Hh) as Ch.
  pose proof (radixDigit_16_inv _ _ Hl) as Cl.
  unfold parseInt. cbn [trimStart]. rewrite Hs.
  assert ((h =? 43) = false) as -> by lia.
  assert ((h =? 45) = false) as -> by lia.
  assert ((l =? 120) = false) as E120 by lia.
  assert ((l =? 88) = false) as E88 by lia.
  simpl. rewrite E120, E88, andb_false_r. simpl.
  rewrite Hh, Hl, sign_plus by lia.
  unfold mathInt. cbn [fold_left].
  destruct (Z.eqb_spec ((0 * 16 + dh) * 16 + dl) 0) as [E|Hd];
    [replace dh with 0 by lia; replace dl with 0 by lia; reflexivity|].
  unfold ToUint8. rewrite Z.mod_small; lia.
Qed.

(** A pair of code units that are not line terminators is a chunk. *)
Lemma regex_chunks_even_app init rest :
  Forall (fun c => isLineTerminator c = false) init ->
  Nat.even (length init) = true ->
  regex_chunks (init ++ rest) = regex_chunks init ++ regex_chunks rest.
Proof.
  remember (length init) as n eqn:Hn. revert init Hn.
  induction n as [n IH] using lt_wf_ind. intros init Hn Hnl Hev.
  destruct init as [|a [|b t]]; [done|by subst| ].
  inversion Hnl as [|? ? Ha Hnl']; subst.
  inversion Hnl' as [|? ? Hb Ht]; subst.
  change ((a :: b :: t) ++ rest) with (a :: b :: (t ++ rest)).
  rewrite !regex_chunks_app_pair by done.
  rewrite (IH (length t)) with (init := t); [done|simpl; lia|done|done|].
  cbn [length] in Hev. by rewrite Nat.even_succ_succ in Hev.
Qed.

Lemma pairs_string_cons p ps :
  pairs_string (p :: ps) = fst p :: snd p :: pairs_string ps.
Proof. reflexivity. Qed.

Lemma regex_chunks_pairs ps rest :
  Forall (fun p => isLineTerminator (fst p) = false
                   /\ isLineTerminator (snd p) = false) ps ->
  regex_chunks (pairs_string ps ++ rest)
  = map (fun p => [fst p; snd p]) ps ++ regex_chunks rest.
Proof.
  induction 1 as [|p ps [Hh Hl] _ IH]; [done|].
  rewrite pairs_string_cons.
  change ((fst p :: snd p :: pairs_string ps) ++ rest)
    with (fst p :: snd p :: (pairs_string ps ++ rest)).
  rewrite regex_chunks_app_pair by done. rewrite IH. reflexivity.
Qed.

(** Decoding a string of pairs of hex digits. *)
Lemma hex_bytes_pairs ps :
  ps <> [] ->
  Forall (fun p => is_Some (radixDigit 16 (fst p))
                   /\ is_Some (radixDigit 16 (snd p))) ps ->
  hex_bytes (pairs_string ps) = Ok (map pair_byte ps).
Proof.
  intros Hne Hps. apply hex_bytes_Ok. split.
  - rewrite <- (app_nil_r (pairs_string ps)), regex_chunks_pairs.
    + simpl. rewrite app_nil_r, List.map_map.
      apply map_ext_Forall. eapply Forall_impl; [exact Hps|].
      intros [h l] [[dh Hh] [dl Hl]]. simpl in *.
      rewrite (parseInt_pair h l dh dl) by done.
      unfold pair_byte, hexValue. simpl. by rewrite Hh, Hl.
    + eapply Forall_impl; [exact Hps|].
      intros [h l] [[dh Hh] [dl Hl]]. simpl in *.
      eauto using hex_digit_not_terminator.
  - destruct ps as [|[h l] ps]; [done|].
    inversion Hps as [|? ? [[dh Hh] _] _]; subst.
    rewrite pairs_string_cons. apply Exists_cons_hd.
    by eapply hex_digit_not_terminator.
Qed.

End HexMore.

(** ** Helpers for the further properties *)

Section ExtraLemmas.
Context `{RT : Runtime}.

Lemma vtu_hex_ok s bs st :
  hex_bytes s = Ok bs ->
  valueToUint8Array (Some (VString s)) (Some "hex"%string) st
  = (Ok (fresh_view (heap st) bs), push st bs).
Proof.
  intros Hb.
  pose proof (vtu_run (Some (VString s)) (Some "hex"%string) st) as H.
  rewrite value_bytes_hex, Hb in H.
  by destruct H as [->|(v & a & [= <-] & Hn & _)].
Qed.

Lemma verify_outcome_signature h rawBody sig1 sig2 timestamp clientPublicKey :
  hex_bytes sig1 = hex_bytes sig2 ->
  verify_outcome h rawBody sig1 timestamp clientPublicKey
  = verify_outcome h rawBody sig2 timestamp clientPublicKey.
Proof.
  intros H. unfold verify_outcome, signature_outcome. by rewrite H.
Qed.

Lemma concat_ok arr1 arr2 st :
  wf_view (heap st) arr1 -> wf_view (heap st) arr2 ->
  let bs := read (heap st) arr1 ++ read (heap st) arr2 in
  concatUint8Arrays arr1 arr2 st = (Ok (fresh_view (heap st) bs), push st bs).
Proof.
  intros W1 W2 bs. destruct (concat_run arr1 arr2 st) as (bs' & E & Hbs).
  specialize (Hbs W1 W2). subst bs'. rewrite E. do 2 f_equal.
  unfold fresh_view, bs. f_equal. by rewrite length_app, !read_length.
Qed.

Lemma hexDigit_value d :
  0 <= d < 16 -> radixDigit 16 (Fake.hexDigit d) = Some d.
Proof.
  intros Hd.
  assert (d = 0 \/ d = 1 \/ d = 2 \/ d = 3 \/ d = 4 \/ d = 5 \/ d = 6
          \/ d = 7 \/ d = 8 \/ d = 9 \/ d = 10 \/ d = 11 \/ d = 12
          \/ d = 13 \/ d = 14 \/ d = 15) as H by lia.
  repeat (destruct H as [->|H]; [reflexivity|]). by subst.
Qed.

Lemma nibbles b :
  0 <= b < 256 -> 0 <= b / 16 < 16 /\ 0 <= b mod 16 < 16.
Proof.
  intros Hb. split.
  - split; [apply Z.div_pos; lia|apply Z.div_lt_upper_bound; lia].
  - apply Z.mod_pos_bound. lia.
Qed.

Lemma hex_of_bytes_pairs bs :
  Fake.hex_of_bytes bs
  = pairs_string
      (map (fun b => (Fake.hexDigit (b / 16), Fake.hexDigit (b mod 16))) bs).
Proof.
  unfold Fake.hex_of_bytes, pairs_string. by rewrite List.map_map.
Qed.

Lemma utf8_encode_ascii s :
  Forall (fun c => 0 <= c < 128) s -> utf8_encode s = s.
Proof.
  unfold utf8_encode. induction 1 as [|c s Hc _ IH]; [done|].
  cbn [codePoints].
  assert (isHighSurrogate c = false) as ->
    by (unfold isHighSurrogate; lia).
  assert (isLowSurrogate c = false) as ->
    by (unfold isLowSurrogate; lia).
  cbn [map concat]. rewrite IH. unfold utf8_of_codePoint.
  assert ((c <? 128) = true) as -> by lia. done.
Qed.

(** The chunks of a string, put together again, are the string without its
    line terminators. *)
Lemma regex_chunks_concat_aux n : forall s,
  length s = n ->
  concat (regex_chunks s) = strip_line_terminators s
  /\ Forall (fun chunk =>
               (length chunk = 1%nat \/ length chunk = 2%nat)
               /\ Forall (fun c => isLineTerminator c = false) chunk)
       (regex_chunks s)
  /\ (length (regex_chunks s) <= length s)%nat.
Proof.
  induction n as [n IH] using lt_wf_ind. intros s Hn.
  destruct s as [|a t]; [by repeat split|].
  cbn [regex_chunks strip_line_terminators List.filter].
  destruct (isLineTerminator a) eqn:Ha; cbn [negb].
  { destruct (IH (length t)) with (s := t) as (H1 & H2 & H3);
      [simpl in Hn; lia|done|].
    split; [done|]. split; [done|]. simpl. lia. }
  destruct t as [|b t'].
  { split; [done|]. split; [|simpl; lia].
    repeat constructor; auto. }
  destruct (isLineTerminator b) eqn:Hb.
  - destruct (IH (length (b :: t'))) with (s := b :: t') as (H1 & H2 & H3);
      [simpl in *; lia|done|].
    split; [|split].
    + cbn [concat]. rewrite H1. reflexivity.
    + constructor; [|done]. split; [by left|]. by repeat constructor.
    + cbn [length] in *. lia.
  - destruct (IH (length t')) with (s := t') as (H1 & H2 & H3);
      [simpl in *; lia|done|].
    split; [|split].
    + cbn [concat List.filter]. rewrite Hb. cbn [negb]. rewrite H1.
      reflexivity.
    + constructor; [|done]. split; [by right|]. by repeat constructor.
    + cbn [length] in *. lia.
Qed.

End ExtraLemmas.

(** ** Further properties of the code *)

Section Extras.
Context `{RT : Runtime}.

(** X1. A non-empty string made of pairs of hex digits, in either case, is
    decoded by the normalizer (format ["hex"]) into one byte per pair, the
    first digit of a pair being the high one. *)
Theorem hex_pairs_decode ps st :
  ps <> [] ->
  Forall (fun p => is_Some (radixDigit 16 (fst p))
                   /\ is_Some (radixDigit 16 (snd p))) ps ->
  exists v st',
    valueToUint8Array (Some (VString (pairs_string ps))) (Some "hex"%string) st
    = (Ok v, st')
    /\ len v = length ps
    /\ read (heap st') v = map pair_byte ps.
Proof.
  intros Hne Hps. eexists _, _.
  split; [apply vtu_hex_ok; by apply hex_bytes_pairs|].
  split; [simpl; by rewrite length_map|apply read_fresh].
Qed.

(** X2. Round trip: the lower-case hex encoding of a non-empty sequence of
    bytes is decoded by the normalizer back into those bytes. *)
Theorem hex_round_trip bs st :
  bs <> [] ->
  Forall (fun b => 0 <= b < 256) bs ->
  exists v st',
    valueToUint8Array (Some (VString (Fake.hex_of_bytes bs)))
      (Some "hex"%string) st = (Ok v, st')
    /\ read (heap st') v = bs.
Proof.
  intros Hne Hbs.
  assert (H : hex_bytes (Fake.hex_of_bytes bs) = Ok bs);
    [|eexists _, _; split; [by apply vtu_hex_ok|apply read_fresh]].
  rewrite hex_of_bytes_pairs, hex_bytes_pairs.
  - f_equal. rewrite List.map_map. rewrite <- (map_id bs) at 2.
    apply map_ext_Forall. eapply Forall_impl; [exact Hbs|].
    intros b Hb. cbv beta in Hb. unfold pair_byte, hexValue; simpl.
    rewrite !hexDigit_value by (apply nibbles; lia).
    change (16 * (b / 16) + b mod 16 = b).
    pose proof (Z.div_mod b 16). lia.
  - by destruct bs.
  - apply Forall_map. eapply Forall_impl; [exact Hbs|].
    intros b Hb. cbv beta in Hb. simpl.
    rewrite !hexDigit_value by (apply nibbles; lia). by split; eexists.
Qed.

(** X3. A signature whose last byte is written with one hex digit instead
    of two (the leading zero left out) decodes to the same bytes, so
    [verifyKey] gives it the same answer as the full spelling. *)
Theorem leading_zero_dropped_same_answer init c d rawBody timestamp
    clientPublicKey st :
  Forall (fun x => isLineTerminator x = false) init ->
  Nat.even (length init) = true ->
  radixDigit 16 c = Some d ->
  wf_value (heap st) rawBody ->
  hex_bytes (init ++ [c]) = hex_bytes (init ++ [48; c])
  /\ fst (verifyKey rawBody (init ++ [c]) timestamp clientPublicKey st)
     = fst (verifyKey rawBody (init ++ [48; c]) timestamp clientPublicKey st).
Proof.
  intros Hnl Hev Hc Hwf.
  assert (Hcl : isLineTerminator c = false)
    by (by eapply hex_digit_not_terminator).
  assert (Hh : hex_bytes (init ++ [c]) = hex_bytes (init ++ [48; c])).
  { transitivity
      (@Ok (list Z)
         (map (fun byte => ToUint8 (parseInt byte 16)) (regex_chunks init)
          ++ [d])).
    - apply hex_bytes_Ok. split.
      + rewrite regex_chunks_even_app by done. rewrite map_app. f_equal.
        simpl. rewrite Hcl. cbn [map]. by rewrite (parseInt_digit c d).
      + apply Exists_app. right. by constructor.
    - symmetry. apply hex_bytes_Ok. split.
      + rewrite regex_chunks_even_app by done. rewrite map_app. f_equal.
        rewrite (regex_chunks_app_pair 48 c []) by done. cbn [map regex_chunks].
        rewrite (parseInt_pair 48 c 0 d) by done. f_equal; lia.
      + apply Exists_app. right. by constructor. }
  split; [exact Hh|].
  destruct (verifyKey_run rawBody (init ++ [c]) timestamp clientPublicKey st
              Hwf) as (s1 & -> & _ & _).
  destruct (verifyKey_run rawBody (init ++ [48; c]) timestamp clientPublicKey
              st Hwf) as (s2 & -> & _ & _).
  cbn [fst]. by rewrite (verify_outcome_signature _ _ _ _ _ _ Hh).
Qed.

(** X4. [verifyKey] answers a boolean, which is [true] exactly when the
    body is of an accepted type, the key resolves (a handle, or a string
    the provider imports), the signature string has a chunk to decode, and
    the provider accepts the decoded signature over the timestamp's bytes
    followed by the body's; in every other case it is [false]. *)
Theorem verifyKey_true_iff rawBody signature timestamp clientPublicKey st :
  wf_value (heap st) rawBody ->
  exists b st',
    verifyKey rawBody signature timestamp clientPublicKey st = (Ok b, st')
    /\ (b = true
        <-> exists body key sig,
              value_bytes (heap st) rawBody None = Ok body
              /\ fst (resolve_key clientPublicKey) = Ok key
              /\ hex_bytes signature = Ok sig
              /\ subtle_verify ed25519_verify key sig
                   (utf8_encode timestamp ++ body) = Ok true).
Proof.
  intros Hwf.
  destruct (verifyKey_run rawBody signature timestamp clientPublicKey st Hwf)
    as (st' & E & _ & _).
  eexists _, st'. split; [exact E|]. apply outcome_true.
Qed.

(** X5. The answer depends on timestamp and body only through the
    concatenated message: two requests, possibly in different stores, whose
    timestamp bytes followed by body bytes are the same sequence get the
    same answer, wherever the boundary between timestamp and body lies. *)
Theorem answer_depends_on_message_only rawBody1 rawBody2 timestamp1 timestamp2
    body1 body2 signature clientPublicKey st1 st2 :
  wf_value (heap st1) rawBody1 ->
  wf_value (heap st2) rawBody2 ->
  value_bytes (heap st1) rawBody1 None = Ok body1 ->
  value_bytes (heap st2) rawBody2 None = Ok body2 ->
  utf8_encode timestamp1 ++ body1 = utf8_encode timestamp2 ++ body2 ->
  fst (verifyKey rawBody1 signature timestamp1 clientPublicKey st1)
  = fst (verifyKey rawBody2 signature timestamp2 clientPublicKey st2).
Proof.
  intros W1 W2 B1 B2 Hm.
  destruct (verifyKey_run rawBody1 signature timestamp1 clientPublicKey st1
              W1) as (s1 & -> & _ & _).
  destruct (verifyKey_run rawBody2 signature timestamp2 clientPublicKey st2
              W2) as (s2 & -> & _ & _).
  cbn [fst]. unfold verify_outcome. rewrite B1, B2; simpl. by rewrite Hm.
Qed.

(** X6. In one call [verifyKey] asks the provider for at most one import
    and then at most one verification; the verification is asked exactly
    when the body is accepted, the key resolves and the signature decodes,
    and without it the answer is [false]. *)
Theorem provider_call_discipline rawBody signature timestamp clientPublicKey
    st :
  wf_value (heap st) rawBody ->
  exists b st' imports verifies,
    verifyKey rawBody signature timestamp clientPublicKey st = (Ok b, st')
    /\ trace st' = trace st ++ imports ++ verifies
    /\ (length imports <= 1)%nat /\ (length verifies <= 1)%nat
    /\ Forall (fun ev => is_verify ev = false) imports
    /\ Forall (fun ev => is_verify ev = true) verifies
    /\ (verifies <> []
        <-> exists body key sig,
              value_bytes (heap st) rawBody None = Ok body
              /\ fst (resolve_key clientPublicKey) = Ok key
              /\ hex_bytes signature = Ok sig)
    /\ (verifies = [] -> b = false)
    /\ (imports <> [] -> exists hex, clientPublicKey = inl hex).
Proof.
  intros Hwf.
  destruct (verifyKey_run rawBody signature timestamp clientPublicKey st Hwf)
    as (st' & E & T & _).
  assert (Hk : (length (snd (resolve_key clientPublicKey)) <= 1)%nat
               /\ Forall (fun ev => is_verify ev = false)
                    (snd (resolve_key clientPublicKey))
               /\ (snd (resolve_key clientPublicKey) <> [] ->
                   exists hex, clientPublicKey = inl hex)).
  { destruct clientPublicKey as [hex|key]; simpl.
    - destruct (hex_bytes hex); simpl;
        (split; [lia|split; [by repeat constructor|eauto]]).
    - split; [lia|split; [constructor|done]]. }
  destruct Hk as (Hk1 & Hk2 & Hk3).
  revert E T. unfold verify_outcome, signature_outcome.
  destruct (value_bytes (heap st) rawBody None) as [body|e]; cbn [fst snd].
  2:{ intros E T. exists false, st', [], []. rewrite app_nil_r in T.
      split; [exact E|]. split; [by rewrite app_nil_r|].
      split; [simpl; lia|]. split; [simpl; lia|].
      split; [constructor|]. split; [constructor|].
      split; [|done]. split; [done|]. by intros (? & ? & ? & ? & _). }
  destruct (resolve_key clientPublicKey) as [[key|e] evs]; cbn [fst snd] in *.
  2:{ intros E T. exists false, st', evs, []. rewrite app_nil_r.
      split; [exact E|]. split; [exact T|].
      split; [exact Hk1|]. split; [simpl; lia|].
      split; [exact Hk2|]. split; [constructor|].
      split; [|by split]. split; [done|].
      by intros (? & ? & ? & _ & ? & _). }
  destruct (hex_bytes signature) as [sig|e]; cbn [fst snd].
  - intros E T. eexists _, st', evs, [_].
    split; [exact E|]. split; [exact T|].
    split; [exact Hk1|]. split; [simpl; lia|].
    split; [exact Hk2|]. split; [by repeat constructor|].
    split; [|by split]. split; [|done].
    intros _. by exists body, key, sig.
  - intros E T. exists false, st', evs, []. rewrite !app_nil_r in *.
    split; [exact E|]. split; [exact T|].
    split; [exact Hk1|]. split; [simpl; lia|].
    split; [exact Hk2|]. split; [constructor|].
    split; [|by split]. split; [done|].
    by intros (? & ? & ? & _ & _ & ?).
Qed.

(** X7. Order of the failures: a body of an unsupported type, or a key
    string without anything to decode, makes [verifyKey] answer [false]
    before the provider is called at all; a signature string without
    anything to decode (the empty string, say) is found out only after the
    key has been imported, so that call is still made, and no verification
    is asked. *)
Theorem failure_order rawBody signature timestamp clientPublicKey st :
  wf_value (heap st) rawBody ->
  (forall e, value_bytes (heap st) rawBody None = Throw e ->
     exists st',
       verifyKey rawBody signature timestamp clientPublicKey st
       = (Ok false, st')
       /\ trace st' = trace st)
  /\ (forall hex,
        clientPublicKey = inl hex ->
        Forall (fun c => isLineTerminator c = true) hex ->
        exists st',
          verifyKey rawBody signature timestamp clientPublicKey st
          = (Ok false, st')
          /\ trace st' = trace st)
  /\ (forall hex kb body,
        clientPublicKey = inl hex ->
        value_bytes (heap st) rawBody None = Ok body ->
        hex_bytes hex = Ok kb ->
        Forall (fun c => isLineTerminator c = true) signature ->
        exists st',
          verifyKey rawBody signature timestamp clientPublicKey st
          = (Ok false, st')
          /\ trace st'
             = trace st
               ++ [EvImportKey "raw" kb ed25519_import false
                     ["verify"%string]]).
Proof.
  intros Hwf.
  destruct (verifyKey_run rawBody signature timestamp clientPublicKey st Hwf)
    as (st' & E & T & _).
  split; [|split].
  - intros e He. exists st'. revert E T. unfold verify_outcome.
    rewrite He. cbn [fst snd collapse]. rewrite app_nil_r. by split.
  - intros hex -> Hh. exists st'. revert E T. unfold verify_outcome.
    assert (hex_bytes hex = Throw not_hex_error) as Hk
      by (by apply hex_bytes_Throw).
    unfold resolve_key. rewrite Hk.
    destruct (value_bytes (heap st) rawBody None);
      cbn [fst snd collapse]; rewrite app_nil_r; by split.
  - intros hex kb body -> Hb Hk Hs. exists st'. revert E T.
    assert (hex_bytes signature = Throw not_hex_error) as Hsig
      by (by apply hex_bytes_Throw).
    unfold verify_outcome, signature_outcome, resolve_key.
    rewrite Hb, Hk, Hsig.
    destruct (subtle_importKey _ _ _ _ _);
      cbn [fst snd collapse]; rewrite ?app_nil_r; by split.
Qed.

(** X8. A byte-sequence input goes through the normalizer with its bytes
    unchanged, whatever the format tag (["hex"] included) and whether or
    not the runtime has [Buffer]: a [Uint8Array] is answered as it is and
    an [ArrayBuffer] as a view on the whole of it, without allocating; a
    [Buffer] is copied into a new buffer where the runtime has [Buffer] and
    answered as it is where it has not. *)
Theorem bytes_pass_through v format bs st :
  bytes_of_value (heap st) v = Some bs ->
  exists a st',
    valueToUint8Array (Some v) format st = (Ok a, st')
    /\ read (heap st') a = bs
    /\ match v with
       | VUint8Array u => a = u /\ st' = st
       | VArrayBuffer l =>
           a = {| buf := l; byteOffset := 0; len := length bs |} /\ st' = st
       | VBuffer b =>
           if has_Buffer
           then heap st !! buf a = None /\ heap st' = heap st ++ [bs]
           else a = b /\ st' = st
       | _ => False
       end.
Proof.
  intros Hb. destruct v as [s|b|l|u|n|b|c]; simpl in Hb; try done;
    injection Hb as <-.
  - unfold valueToUint8Array, Buffer_isBuffer; simpl.
    destruct has_Buffer; simpl.
    + eexists _, _. split; [reflexivity|]. simpl.
      split; [apply (read_fresh (heap st))|].
      split; [by apply lookup_ge_None_2|done].
    + by exists b, st.
  - eexists _, st. split.
    + unfold valueToUint8Array, Buffer_isBuffer; simpl.
      destruct has_Buffer; reflexivity.
    + split; [|done]. unfold read; simpl. rewrite drop_0. apply firstn_all.
  - exists u, st. split; [|done].
    unfold valueToUint8Array, Buffer_isBuffer; simpl.
    destruct has_Buffer; reflexivity.
Qed.

(** X9. The chunks [match(/.{1,2}/g)] cuts a string into are of one or two
    code units, hold no line terminator, are no more than the string has
    code units and, put together again, give the string without its line
    terminators: nothing else is dropped and nothing is read twice. *)
Theorem regex_chunks_partition s :
  concat (regex_chunks s) = strip_line_terminators s
  /\ Forall (fun chunk =>
               (length chunk = 1%nat \/ length chunk = 2%nat)
               /\ Forall (fun c => isLineTerminator c = false) chunk)
       (regex_chunks s)
  /\ (length (regex_chunks s) <= length s)%nat.
Proof. by apply (regex_chunks_concat_aux (length s)). Qed.

(** X10. Concatenations compose: joining three arrays of the store either
    way, (A then B) then C or A then (B then C), gives arrays holding the
    same bytes, A followed by B followed by C. *)
Theorem concat_associative arr1 arr2 arr3 st :
  wf_view (heap st) arr1 -> wf_view (heap st) arr2 ->
  wf_view (heap st) arr3 ->
  exists m12 s1 left s2 m23 t1 right t2,
    concatUint8Arrays arr1 arr2 st = (Ok m12, s1)
    /\ concatUint8Arrays m12 arr3 s1 = (Ok left, s2)
    /\ concatUint8Arrays arr2 arr3 st = (Ok m23, t1)
    /\ concatUint8Arrays arr1 m23 t1 = (Ok right, t2)
    /\ read (heap s2) left = read (heap t2) right
    /\ read (heap s2) left
       = read (heap st) arr1 ++ read (heap st) arr2 ++ read (heap st) arr3.
Proof.
  intros W1 W2 W3.
  pose proof (concat_ok arr1 arr2 st W1 W2) as E12. simpl in E12.
  set (b12 := read (heap st) arr1 ++ read (heap st) arr2) in *.
  assert (P1 : heap st `prefix_of` heap (push st b12)) by (by exists [b12]).
  pose proof (concat_ok _ _ (push st b12) (wf_fresh_view (heap st) b12)
                (wf_view_prefix _ _ _ P1 W3)) as EL. simpl in EL.
  pose proof (concat_ok arr2 arr3 st W2 W3) as E23. simpl in E23.
  set (b23 := read (heap st) arr2 ++ read (heap st) arr3) in *.
  assert (P2 : heap st `prefix_of` heap (push st b23)) by (by exists [b23]).
  pose proof (concat_ok _ _ (push st b23) (wf_view_prefix _ _ _ P2 W1)
                (wf_fresh_view (heap st) b23)) as ER. simpl in ER.
  eexists _, _, _, _, _, _, _, _.
  split; [exact E12|]. split; [exact EL|].
  split; [exact E23|]. split; [exact ER|].
  simpl. rewrite !read_fresh.
  rewrite !read_app by (by apply wf_view_lt).
  unfold b12, b23. by rewrite app_assoc.
Qed.

(** X11. Signs are read: in a hex string the chunk made of a minus sign
    and a hex digit of value d gives the byte 256 - d (0 for d = 0), and
    the chunk made of a plus sign and that digit gives d; neither is
    rejected. *)
Theorem signed_chunk_wraps c d st :
  radixDigit 16 c = Some d ->
  (exists v st',
      valueToUint8Array (Some (VString [45; c])) (Some "hex"%string) st
      = (Ok v, st')
      /\ read (heap st') v = [(256 - d) mod 256])
  /\ (exists v st',
         valueToUint8Array (Some (VString [43; c])) (Some "hex"%string) st
         = (Ok v, st')
         /\ read (heap st') v = [d]).
Proof.
  intros Hc.
  pose proof (radixDigit_16_range _ _ Hc) as Hr.
  pose proof (radixDigit_16_inv _ _ Hc) as Hi.
  pose proof (hex_digit_not_terminator _ _ Hc) as Hl.
  assert (Hm : hex_bytes [45; c] = Ok [(256 - d) mod 256]).
  { apply hex_bytes_Ok. split; [|by apply Exists_cons_hd].
    rewrite (regex_chunks_app_pair 45 c []) by done. cbn [map regex_chunks].
    f_equal. unfold parseInt. cbn. rewrite Hc. unfold mathInt.
    cbn [fold_left].
    destruct (Z.eqb_spec (0 * 16 + d) 0) as [E|Hd].
    - replace d with 0 by lia. reflexivity.
    - unfold ToUint8.
      replace (-1 * (0 * 16 + d)) with (256 - d + (-1) * 256) by lia.
      by rewrite Z_mod_plus_full. }
  assert (Hp : hex_bytes [43; c] = Ok [d]).
  { apply hex_bytes_Ok. split; [|by apply Exists_cons_hd].
    rewrite (regex_chunks_app_pair 43 c []) by done. cbn [map regex_chunks].
    f_equal. unfold parseInt. cbn. rewrite Hc. unfold mathInt.
    cbn [fold_left].
    destruct (Z.eqb_spec (0 * 16 + d) 0) as [E|Hd].
    - replace d with 0 by lia. reflexivity.
    - unfold ToUint8. rewrite Z.mod_small; lia. }
  split; eexists _, _.
  - split; [by apply vtu_hex_ok|apply read_fresh].
  - split; [by apply vtu_hex_ok|apply read_fresh].
Qed.

(** X12. A string of ASCII characters given with any format tag other
    than ["hex"] (none, or an unknown one) is never rejected and gives one
    byte per character, the character's code. *)
Theorem ascii_string_bytes s format st :
  Forall (fun c => 0 <= c < 128) s ->
  format <> Some "hex"%string ->
  exists v st',
    valueToUint8Array (Some (VString s)) format st = (Ok v, st')
    /\ len v = length s
    /\ read (heap st') v = s.
Proof.
  intros Hs Hf. unfold valueToUint8Array. rewrite decide_False by done.
  unfold TextEncoder_encode. rewrite utf8_encode_ascii by done.
  eexists _, _. split; [reflexivity|]. split; [done|].
  apply (read_fresh (heap st)).
Qed.

End Extras.

(** ** The theorems at concrete inputs, on the stand-in provider *)

Import Fake.

Lemma wf_body_view : wf_view (heap st1) body_view.
Proof. exists ([0; 0] ++ utf8_encode body0 ++ [9]). split; [reflexivity|]. simpl. lia. Defined.

Lemma verifyKey_never_raises_witness :
  wf_value (heap st0) (Some (VNumber 3))
  /\ fst (verifyKey (RT := fake_runtime) (Some (VNumber 3)) (js "abc")
            timestamp0 (inr key32) st0) = Ok false.
Proof.
  split; [exact I|].
  apply (proj1 (proj2 (verifyKey_never_raises (RT := fake_runtime)
                         (Some (VNumber 3)) (js "abc") timestamp0
                         (inr key32) st0) I) unrecognized_error).
  reflexivity.
Defined.

Lemma concat_is_append_timestamp_first_witness :
  let arr1 := {| buf := 1; byteOffset := 1; len := 2 |} in
  let arr2 := {| buf := 1; byteOffset := 0; len := 3 |} in
  wf_view (heap st1) arr1 /\ wf_view (heap st1) arr2
  /\ exists merged st',
      concatUint8Arrays (RT := fake_runtime) arr1 arr2 st1 = (Ok merged, st')
      /\ read (heap st') merged = [2; 3; 1; 2; 3].
Proof.
  intros arr1 arr2.
  assert (W1 : wf_view (heap st1) arr1)
    by (exists [1; 2; 3; 4]; split; [reflexivity|simpl; lia]).
  assert (W2 : wf_view (heap st1) arr2)
    by (exists [1; 2; 3; 4]; split; [reflexivity|simpl; lia]).
  split; [exact W1|]. split; [exact W2|].
  destruct (proj1 (concat_is_append_timestamp_first (RT := fake_runtime))
              arr1 arr2 st1 W1 W2) as (m & st' & E & _ & _ & _ & _ & R).
  exists m, st'. split; [exact E|exact R].
Defined.

Lemma hex_raises_only_without_chunk_witness :
  Exists (fun c => isLineTerminator c = false) (js "abc")
  /\ exists v st',
      valueToUint8Array (RT := fake_runtime) (Some (VString (js "abc")))
        (Some "hex"%string) st0 = (Ok v, st')
      /\ read (heap st') v = [171; 12].
Proof.
  assert (Hex : Exists (fun c => isLineTerminator c = false) (js "abc"))
    by (apply Exists_cons_hd; reflexivity).
  split; [exact Hex|].
  destruct (proj2 (hex_raises_only_without_chunk (RT := fake_runtime)
                     (js "abc") st0) Hex) as (v & st' & E & R).
  exists v, st'. split; [exact E|exact R].
Defined.

Lemma key_resolution_witness :
  wf_value (heap st0) (Some (VString body0))
  /\ hex_bytes (hex_of_bytes key32) = Ok key32
  /\ exists b st' evs,
      verifyKey (RT := fake_runtime) (Some (VString body0)) signature_hex
        timestamp0 (inl (hex_of_bytes key32)) st0 = (Ok b, st')
      /\ trace st'
         = EvImportKey "raw" key32
             {| name := "ed25519"; namedCurve := Some "ed25519"%string |}
             false ["verify"%string] :: evs.
Proof.
  split; [exact I|]. split; [reflexivity|].
  destruct (proj1 (key_resolution (RT := fake_runtime) (Some (VString body0))
                     signature_hex timestamp0 st0 (utf8_encode body0) I
                     eq_refl)
              (hex_of_bytes key32) key32 eq_refl)
    as (b & st' & evs & E & T & _).
  exists b, st', evs. split; [exact E|exact T].
Defined.

Lemma absent_body_is_empty_witness :
  exists b st' evs,
    verifyKey (RT := fake_runtime) None signature_hex timestamp0 (inr key32)
      st0 = (Ok b, st')
    /\ trace st' = trace st0 ++ evs
    /\ (forall alg key sig data,
          EvVerify alg key sig data ∈ evs -> data = utf8_encode timestamp0).
Proof.
  destruct (proj2 (absent_body_is_empty (RT := fake_runtime) signature_hex
                     timestamp0 (inr key32) st0))
    as (b & st' & evs & E & T & Hev & _).
  exists b, st', evs. split; [exact E|]. split; [exact T|exact Hev].
Defined.

Lemma string_and_bytes_agree_witness :
  wf_value (heap st1) (Some (VUint8Array body_view))
  /\ bytes_of_value (heap st1) (VUint8Array body_view)
     = Some (utf8_encode body0)
  /\ fst (verifyKey (RT := fake_runtime) (Some (VString body0)) signature_hex
            timestamp0 (inr key32) st1)
     = fst (verifyKey (RT := fake_runtime) (Some (VUint8Array body_view))
              signature_hex timestamp0 (inr key32) st1).
Proof.
  split; [exact wf_body_view|]. split; [reflexivity|].
  apply (string_and_bytes_agree (RT := fake_runtime));
    [exact wf_body_view|reflexivity].
Defined.

Lemma unsupported_type_error_witness :
  exists message,
    valueToUint8Array (RT := fake_runtime) (Some (VNumber 3)) None st0
    = (Throw (Error message), st0)
    /\ mentions "Uint8Array" message = true.
Proof.
  destruct (unsupported_type_error (RT := fake_runtime) (VNumber 3) None st0)
    as (message & E & _ & _ & _ & _ & Hm);
    [intros s; discriminate|reflexivity|reflexivity|].
  exists message. split; [exact E|exact Hm].
Defined.

Lemma odd_signature_is_decoded_witness :
  wf_value (heap st0) (Some (VString body0))
  /\ Nat.odd (length (js "abc")) = true
  /\ exists b st',
      verifyKey (RT := fake_runtime) (Some (VString body0)) (js "abc")
        timestamp0 (inr key32) st0 = (Ok b, st')
      /\ exists init c,
          js "abc" = init ++ [c]
          /\ hex_bytes (js "abc")
             = Ok (map (fun byte => ToUint8 (parseInt byte 16))
                     (regex_chunks init)
                   ++ [ToUint8 (parseInt [c] 16)]).
Proof.
  split; [exact I|]. split; [reflexivity|].
  destruct (odd_signature_is_decoded (RT := fake_runtime)
              (Some (VString body0)) (js "abc") timestamp0 (inr key32) st0 I
              eq_refl) as (b & st' & E & _ & Hd).
  exists b, st'. split; [exact E|].
  apply Hd. repeat constructor.
Defined.

Lemma inputs_not_mutated_witness :
  wf_value (heap st1) (Some (VUint8Array body_view))
  /\ bytes_of_value
       (heap (snd (verifyKey (RT := fake_runtime)
                     (Some (VUint8Array body_view)) signature_hex timestamp0
                     (inr key32) st1)))
       (VUint8Array body_view)
     = Some (utf8_encode body0).
Proof.
  split; [exact wf_body_view|].
  rewrite (proj1 (proj2 (inputs_not_mutated (RT := fake_runtime)
                           (Some (VUint8Array body_view)) signature_hex
                           timestamp0 (inr key32) st1))
             (VUint8Array body_view) eq_refl wf_body_view).
  reflexivity.
Defined.

Lemma hex_decoding_is_lenient_witness :
  Exists (fun c => isLineTerminator c = false) (js "zz1")
  /\ exists v st',
      valueToUint8Array (RT := fake_runtime) (Some (VString (js "zz1")))
        (Some "hex"%string) st0 = (Ok v, st')
      /\ length (read (heap st') v) = 2%nat.
Proof.
  assert (Hex : Exists (fun c => isLineTerminator c = false) (js "zz1"))
    by (apply Exists_cons_hd; reflexivity).
  split; [exact Hex|].
  destruct (proj2 (hex_decoding_is_lenient (RT := fake_runtime) (js "zz1")
                     st0) Hex) as (v & st' & E & _ & Hlen).
  exists v, st'. split; [exact E|].
  apply Hlen. repeat constructor.
Defined.

(** ** Where the specification and the code part *)

(** C3, as stated, fails: a hex string of odd length, and one made of
    characters that are not hex digits, are both decoded and nothing is
    raised. *)
Lemma hex_accepts_malformed :
  (Nat.odd (length (js "abc")) = true
   /\ exists v st',
       valueToUint8Array (RT := fake_runtime) (Some (VString (js "abc")))
         (Some "hex"%string) st0 = (Ok v, st')
       /\ read (heap st') v = [171; 12])
  /\ (Forall (fun c => radixDigit 16 c = None) (js "zz")
      /\ exists v st',
          valueToUint8Array (RT := fake_runtime) (Some (VString (js "zz")))
            (Some "hex"%string) st0 = (Ok v, st')
          /\ read (heap st') v = [0]).
Proof.
  split.
  - split; [reflexivity|]. eexists _, _. split; vm_compute; reflexivity.
  - split; [by repeat constructor|].
    eexists _, _. split; vm_compute; reflexivity.
Qed.

(** C1, as stated, fails: with the platform's Ed25519, a signature string
    and a key string whose last two characters are "5z" (the last one no
    hex digit) are not answered [false]: they decode to the signature and
    to the key, and [verifyKey] answers [true]. *)
Lemma malformed_hex_answers_true :
  (last Signed.signature_nonhex = Some 122 /\ radixDigit 16 122 = None
   /\ hex_bytes Signed.signature_nonhex = Ok Signed.signature
   /\ fst (verifyKey (RT := ed25519_runtime) (Some (VString Signed.body))
             Signed.signature_nonhex Signed.timestamp
             (inl Signed.public_key_hex) Signed.st0) = Ok true)
  /\ (last Signed.public_key_nonhex = Some 122
      /\ hex_bytes Signed.public_key_nonhex = Ok Signed.public_key
      /\ fst (verifyKey (RT := ed25519_runtime) (Some (VString Signed.body))
                Signed.signature_hex Signed.timestamp
                (inl Signed.public_key_nonhex) Signed.st0) = Ok true).
Proof.
  split.
  - split; [vm_compute; reflexivity|].
    split; [vm_compute; reflexivity|].
    split; vm_compute; reflexivity.
  - split; [vm_compute; reflexivity|].
    split; vm_compute; reflexivity.
Qed.

(** C8, as stated, fails: with the platform's Ed25519, the signature of
    the request written with 127 hex characters, the leading zero of its
    last byte left out, is of odd length and [verifyKey] answers [true]. *)
Lemma odd_signature_accepted :
  length Signed.signature_odd = 127%nat
  /\ Nat.odd (length Signed.signature_odd) = true
  /\ hex_bytes Signed.signature_odd = Ok Signed.signature
  /\ fst (verifyKey (RT := ed25519_runtime) (Some (VString Signed.body))
            Signed.signature_odd Signed.timestamp
            (inl Signed.public_key_hex) Signed.st0) = Ok true.
Proof.
  split; [vm_compute; reflexivity|].
  split; [vm_compute; reflexivity|].
  split; vm_compute; reflexivity.
Qed.

(** C10, as stated, fails: a non-empty string made of a line terminator
    throws; a string with a line terminator gives fewer bytes than
    ceil(len/2); and a chunk that is not valid hex but starts with a hex
    digit, or with a sign before one, does not give the byte 0. *)
Lemma hex_decoding_counterexample :
  ([10] <> []
   /\ valueToUint8Array (RT := fake_runtime) (Some (VString [10]))
        (Some "hex"%string) st0
      = (Throw (Error "Value is not a valid hex string"), st0))
  /\ (exists v st',
         valueToUint8Array (RT := fake_runtime)
           (Some (VString (js "ab" ++ [10]))) (Some "hex"%string) st0
         = (Ok v, st')
         /\ length (js "ab" ++ [10]) = 3%nat
         /\ length (read (heap st') v) = 1%nat)
  /\ (exists v st',
         valueToUint8Array (RT := fake_runtime) (Some (VString (js "1z-1")))
           (Some "hex"%string) st0
         = (Ok v, st')
         /\ regex_chunks (js "1z-1") = [js "1z"; js "-1"]
         /\ radixDigit 16 122 = None /\ radixDigit 16 45 = None
         /\ read (heap st') v = [1; 255]).
Proof.
  split; [split; [done|vm_compute; reflexivity]|].
  split.
  - eexists _, _. split; [vm_compute; reflexivity|].
    split; vm_compute; reflexivity.
  - eexists _, _. split; [vm_compute; reflexivity|].
    split; [vm_compute; reflexivity|].
    split; [vm_compute; reflexivity|].
    split; vm_compute; reflexivity.
Qed.

(** ** Samples *)

Example regex_chunks_abc : regex_chunks (js "abc") = [js "ab"; js "c"].
Proof. reflexivity. Qed.

Example regex_chunks_newline :
  regex_chunks (js "ab" ++ [10] ++ js "c") = [js "ab"; js "c"].
Proof. reflexivity. Qed.

Example parseInt_samples :
  map (fun s => parseInt (js s) 16)
    ["ff"; "zz"; "1z"; "-1"; "0x"; " 7"; "-0"; "c"]%string
  = [Num 255; NaN; Num 1; Num (-1); NaN; Num 7; NegZero; Num 12].
Proof. reflexivity. Qed.

Example utf8_samples :
  utf8_encode (js "hi") = [104; 105]
  /\ utf8_encode [233] = [195; 169]
  /\ utf8_encode [8364] = [226; 130; 172]
  /\ utf8_encode [55357; 56832] = [240; 159; 152; 128]
  /\ utf8_encode [55357] = [239; 191; 189].
Proof. repeat split; reflexivity. Qed.

Example verifyKey_accepts_signed_request :
  fst (verifyKey (RT := fake_runtime) (Some (VString body0)) signature_hex
         timestamp0 (inl (hex_of_bytes key32)) st0) = Ok true
  /\ fst (verifyKey (RT := fake_runtime) (Some (VString (js "hellp")))
            signature_hex timestamp0 (inl (hex_of_bytes key32)) st0)
     = Ok false.
Proof. split; vm_compute; reflexivity. Qed.

Example sha512_abc :
  Sha512.sha512 (js "abc")
  = [221; 175; 53; 161; 147; 97; 122; 186; 204; 65; 115; 73; 174; 32; 65; 49;
     18; 230; 250; 78; 137; 169; 126; 162; 10; 158; 238; 230; 75; 85; 211;
     154; 33; 146; 153; 42; 39; 79; 193; 168; 54; 186; 60; 35; 163; 254; 235;
     189; 69; 77; 68; 35; 100; 60; 232; 14; 42; 154; 201; 79; 165; 76; 164;
     159].
Proof. vm_compute. reflexivity. Qed.

Example ed25519_constants :
  Ed25519.p = 2 ^ 255 - 19
  /\ Ed25519.L = 2 ^ 252 + 27742317777372353535851937790883648493
  /\ BigZ.to_Z Ed25519.d * 121666 mod Ed25519.p = Ed25519.p - 121665
  /\ BigZ.to_Z Ed25519.base_y * 5 mod Ed25519.p = 4
  /\ Ed25519.decode_point
       (88 :: replicate 31 102) = Some Ed25519.base.
Proof. repeat (split; [vm_compute; reflexivity|]). vm_compute. reflexivity. Qed.

Example ed25519_request :
  fst (verifyKey (RT := ed25519_runtime) (Some (VString Signed.body))
         Signed.signature_hex Signed.timestamp (inl Signed.public_key_hex)
         Signed.st0) = Ok true
  /\ fst (verifyKey (RT := ed25519_runtime) (Some (VString (js "hellp")))
            Signed.signature_hex Signed.timestamp (inl Signed.public_key_hex)
            Signed.st0) = Ok false
  /\ fst (verifyKey (RT := ed25519_runtime) (Some (VString Signed.body))
            (js "abc") Signed.timestamp (inl Signed.public_key_hex)
            Signed.st0) = Ok false.
Proof.
  split; [vm_compute; reflexivity|].
  split; vm_compute; reflexivity.
Qed.

(** ** The further properties at concrete inputs *)

Lemma hex_pairs_decode_witness :
  [(65, 98)] <> ([] : list (Z * Z))
  /\ exists v st',
      valueToUint8Array (RT := fake_runtime) (Some (VString (js "Ab")))
        (Some "hex"%string) st0 = (Ok v, st')
      /\ read (heap st') v = [171].
Proof.
  split; [discriminate|].
  destruct (hex_pairs_decode (RT := fake_runtime) [(65, 98)] st0)
    as (v & st' & E & _ & R); [discriminate| |].
  - constructor; [|constructor]. split; eexists; reflexivity.
  - exists v, st'. split; [exact E|exact R].
Defined.

Lemma hex_round_trip_witness :
  Forall (fun b => 0 <= b < 256) [0; 171; 255]
  /\ exists v st',
      valueToUint8Array (RT := fake_runtime)
        (Some (VString (hex_of_bytes [0; 171; 255]))) (Some "hex"%string) st0
      = (Ok v, st')
      /\ read (heap st') v = [0; 171; 255].
Proof.
  assert (H : Forall (fun b => 0 <= b < 256) [0; 171; 255])
    by (repeat constructor; lia).
  split; [exact H|].
  apply (hex_round_trip (RT := fake_runtime) [0; 171; 255] st0);
    [discriminate|exact H].
Defined.

Lemma leading_zero_dropped_same_answer_witness :
  Nat.even (length (js "ab")) = true
  /\ radixDigit 16 99 = Some 12
  /\ hex_bytes (js "abc") = hex_bytes (js "ab0c").
Proof.
  split; [reflexivity|]. split; [reflexivity|].
  apply (leading_zero_dropped_same_answer (RT := fake_runtime) (js "ab") 99 12
           None timestamp0 (inr key32) st0);
    [repeat constructor|reflexivity|reflexivity|exact I].
Defined.

Lemma verifyKey_true_iff_witness :
  wf_value (heap st0) (Some (VString body0))
  /\ exists st',
      verifyKey (RT := fake_runtime) (Some (VString body0)) signature_hex
        timestamp0 (inr key32) st0 = (Ok true, st').
Proof.
  split; [exact I|].
  destruct (verifyKey_true_iff (RT := fake_runtime) (Some (VString body0))
              signature_hex timestamp0 (inr key32) st0 I)
    as (b & st' & E & Hb).
  assert (b = true) as Ht.
  { apply (proj2 Hb). exists (utf8_encode body0), key32, signature0.
    split; [reflexivity|]. split; [reflexivity|].
    split; vm_compute; reflexivity. }
  exists st'. rewrite <- Ht. exact E.
Defined.

Lemma answer_depends_on_message_only_witness :
  utf8_encode (js "1699999999") ++ utf8_encode (js "hello")
  = utf8_encode (js "169999999") ++ utf8_encode (js "9hello")
  /\ fst (verifyKey (RT := fake_runtime) (Some (VString (js "hello")))
            signature_hex (js "1699999999") (inr key32) st0)
     = fst (verifyKey (RT := fake_runtime) (Some (VString (js "9hello")))
              signature_hex (js "169999999") (inr key32) st1).
Proof.
  split; [vm_compute; reflexivity|].
  apply (answer_depends_on_message_only (RT := fake_runtime)
           (Some (VString (js "hello"))) (Some (VString (js "9hello")))
           (js "1699999999") (js "169999999")
           (utf8_encode (js "hello")) (utf8_encode (js "9hello")));
    [exact I|exact I|reflexivity|reflexivity|vm_compute; reflexivity].
Defined.

Lemma provider_call_discipline_witness :
  wf_value (heap st0) (Some (VString body0))
  /\ exists b st' imports verifies,
      verifyKey (RT := fake_runtime) (Some (VString body0)) signature_hex
        timestamp0 (inl (hex_of_bytes key32)) st0 = (Ok b, st')
      /\ trace st' = trace st0 ++ imports ++ verifies
      /\ (length imports <= 1)%nat /\ (length verifies <= 1)%nat.
Proof.
  split; [exact I|].
  destruct (provider_call_discipline (RT := fake_runtime)
              (Some (VString body0)) signature_hex timestamp0
              (inl (hex_of_bytes key32)) st0 I)
    as (b & st' & imports & verifies & E & T & L1 & L2 & _).
  exists b, st', imports, verifies.
  split; [exact E|]. split; [exact T|]. split; [exact L1|exact L2].
Defined.

Lemma failure_order_witness :
  wf_value (heap st0) (Some (VString body0))
  /\ hex_bytes (hex_of_bytes key32) = Ok key32
  /\ Forall (fun c => isLineTerminator c = true) []
  /\ exists st',
      verifyKey (RT := fake_runtime) (Some (VString body0)) [] timestamp0
        (inl (hex_of_bytes key32)) st0 = (Ok false, st')
      /\ trace st'
         = trace st0
           ++ [EvImportKey "raw" key32 ed25519_import false ["verify"%string]].
Proof.
  assert (Hk : hex_bytes (hex_of_bytes key32) = Ok key32)
    by (vm_compute; reflexivity).
  split; [exact I|]. split; [exact Hk|]. split; [constructor|].
  apply (proj2 (proj2 (failure_order (RT := fake_runtime)
                         (Some (VString body0)) [] timestamp0
                         (inl (hex_of_bytes key32)) st0 I))
           (hex_of_bytes key32) key32 (utf8_encode body0));
    [reflexivity|reflexivity|exact Hk|constructor].
Defined.

Lemma bytes_pass_through_witness :
  bytes_of_value (heap st1) (VUint8Array body_view) = Some (utf8_encode body0)
  /\ exists a st',
      valueToUint8Array (RT := fake_runtime) (Some (VUint8Array body_view))
        (Some "hex"%string) st1 = (Ok a, st')
      /\ read (heap st') a = utf8_encode body0
      /\ a = body_view /\ st' = st1.
Proof.
  split; [reflexivity|].
  destruct (bytes_pass_through (RT := fake_runtime) (VUint8Array body_view)
              (Some "hex"%string) (utf8_encode body0) st1 eq_refl)
    as (a & st' & E & R & Ha & Hs).
  exists a, st'. split; [exact E|]. split; [exact R|]. split; [exact Ha|exact Hs].
Defined.

Lemma concat_associative_witness :
  let arr1 := {| buf := 1; byteOffset := 0; len := 1 |} in
  let arr2 := {| buf := 1; byteOffset := 1; len := 2 |} in
  let arr3 := {| buf := 1; byteOffset := 3; len := 1 |} in
  wf_view (heap st1) arr1 /\ wf_view (heap st1) arr2
  /\ wf_view (heap st1) arr3
  /\ exists m12 s1 left s2,
      concatUint8Arrays (RT := fake_runtime) arr1 arr2 st1 = (Ok m12, s1)
      /\ concatUint8Arrays (RT := fake_runtime) m12 arr3 s1 = (Ok left, s2)
      /\ read (heap s2) left = [1; 2; 3; 4].
Proof.
  intros arr1 arr2 arr3.
  assert (W1 : wf_view (heap st1) arr1)
    by (exists [1; 2; 3; 4]; split; [reflexivity|simpl; lia]).
  assert (W2 : wf_view (heap st1) arr2)
    by (exists [1; 2; 3; 4]; split; [reflexivity|simpl; lia]).
  assert (W3 : wf_view (heap st1) arr3)
    by (exists [1; 2; 3; 4]; split; [reflexivity|simpl; lia]).
  split; [exact W1|]. split; [exact W2|]. split; [exact W3|].
  destruct (concat_associative (RT := fake_runtime) arr1 arr2 arr3 st1
              W1 W2 W3)
    as (m12 & s1 & left & s2 & _ & _ & _ & _ & E1 & E2 & _ & _ & _ & R).
  exists m12, s1, left, s2. split; [exact E1|]. split; [exact E2|exact R].
Defined.

Lemma signed_chunk_wraps_witness :
  radixDigit 16 102 = Some 15
  /\ exists v st',
      valueToUint8Array (RT := fake_runtime) (Some (VString (js "-f")))
        (Some "hex"%string) st0 = (Ok v, st')
      /\ read (heap st') v = [241].
Proof.
  split; [reflexivity|].
  destruct (proj1 (signed_chunk_wraps (RT := fake_runtime) 102 15 st0
                     eq_refl)) as (v & st' & E & R).
  exists v, st'. split; [exact E|exact R].
Defined.

Lemma ascii_string_bytes_witness :
  Forall (fun c => 0 <= c < 128) (js "hello")
  /\ exists v st',
      valueToUint8Array (RT := fake_runtime) (Some (VString (js "hello")))
        (Some "utf-8"%string) st0 = (Ok v, st')
      /\ len v = 5%nat
      /\ read (heap st') v = [104; 101; 108; 108; 111].
Proof.
  assert (H : Forall (fun c => 0 <= c < 128) (js "hello"))
    by (repeat constructor; lia).
  split; [exact H|].
  apply (ascii_string_bytes (RT := fake_runtime) (js "hello")
           (Some "utf-8"%string) st0 H).
  discriminate.
Defined.
